(** * gonzo: layered configuration resolution (cmd/gonzo/main.go)

    The program declares its command-line flags with cobra/pflag, binds
    them to viper keys, and in [initConfig] lets viper merge flags, the
    process environment and an optional YAML file into the [Config]
    record.  This development embeds [init], [initConfig] and [main] as
    written, over a model of the library calls they make:

    - pflag flags are seen as viper sees them, through the [FlagValue]
      interface (HasChanged, ValueString, ValueType);
    - viper is the record of the fields these calls touch, with
      [find], [AllSettings] and [Unmarshal] on top of it;
    - the operating system (environment, home directory, files) and the
      conversions of the Go standard library are inputs: the record
      [World] and the class [GoLib].

    Setting keys are ASCII; a configuration document is flat (keys
    without viper's key delimiter [.], values scalars or sequences). *)

From Stdlib Require Import ZArith Lia Ascii.
From stdpp Require Import base strings gmap list option.

Open Scope string_scope.
Open Scope list_scope.

(** ** Go's [strings] package, on byte strings *)
Module GoStrings.

Definition isLowerAscii (c : ascii) : bool :=
  let n := nat_of_ascii c in (97 <=? n)%nat && (n <=? 122)%nat.

Definition isUpperAscii (c : ascii) : bool :=
  let n := nat_of_ascii c in (65 <=? n)%nat && (n <=? 90)%nat.

Definition upperAscii (c : ascii) : ascii :=
  if isLowerAscii c then ascii_of_nat (nat_of_ascii c - 32) else c.

Definition lowerAscii (c : ascii) : ascii :=
  if isUpperAscii c then ascii_of_nat (nat_of_ascii c + 32) else c.

Fixpoint mapBytes (f : ascii -> ascii) (s : string) : string :=
  match s with
  | EmptyString => EmptyString
  | String c s' => String (f c) (mapBytes f s')
  end.

(** [strings.ToUpper] and [strings.ToLower]. *)
Definition ToUpper : string -> string := mapBytes upperAscii.
Definition ToLower : string -> string := mapBytes lowerAscii.

(** [strings.NewReplacer(old, new)] for one-byte [old] and [new]. *)
Record Replacer := NewReplacer { r_old : ascii; r_new : ascii }.

Definition replaceByte (r : Replacer) (c : ascii) : ascii :=
  if Ascii.eqb c (r_old r) then r_new r else c.

Definition Replace (r : Replacer) : string -> string :=
  mapBytes (replaceByte r).

(** [strings.Split(s, sep)] for a one-byte separator: [n] separators
    give [n + 1] pieces, empty pieces included. *)
Fixpoint Split (s : string) (sep : ascii) : list string :=
  match s with
  | EmptyString => [EmptyString]
  | String c s' =>
      if Ascii.eqb c sep then EmptyString :: Split s' sep
      else match Split s' sep with
           | piece :: rest => String c piece :: rest
           | [] => [String c EmptyString]
           end
  end.

(** [strings.Join(elems, sep)]. *)
Fixpoint Join (elems : list string) (sep : string) : string :=
  match elems with
  | [] => EmptyString
  | [e] => e
  | e :: rest => e +:+ sep +:+ Join rest sep
  end.

(** [strings.TrimPrefix] and [strings.TrimSuffix] for a one-byte affix. *)
Definition TrimPrefix (s : string) (c : ascii) : string :=
  match s with
  | String a s' => if Ascii.eqb a c then s' else s
  | EmptyString => s
  end.

Fixpoint TrimSuffix (s : string) (c : ascii) : string :=
  match s with
  | EmptyString => EmptyString
  | String a EmptyString => if Ascii.eqb a c then EmptyString else s
  | String a s' => String a (TrimSuffix s' c)
  end.

Fixpoint allBytes (p : ascii -> bool) (s : string) : bool :=
  match s with
  | EmptyString => true
  | String a s' => p a && allBytes p s'
  end.


End GoStrings.
Import GoStrings.

(** ** The schema declared in [init] *)

(** pflag's [ValueType] of the flags the program declares. *)
Inductive ValueType := TInt | TDuration | TBool | TString | TStringSlice.

#[global] Instance ValueType_eq_dec : EqDecision ValueType.
Proof. solve_decision. Defined.

(** A [pflag.Flag]: the declaration and the state that parsing the
    command line updates ([Value], [Changed]). *)
Record Flag := mkFlag {
  Name : string;
  Shorthand : string;
  VType : ValueType;
  DefValue : string;
  Value : string;
  Changed : bool
}.

Definition newFlag (name shorthand : string) (t : ValueType) (def : string) : Flag :=
  mkFlag name shorthand t def def false.

(** [rootCmd.PersistentFlags()]: line 140. *)
Definition persistentFlagDecls : list Flag :=
  [ newFlag "config" "" TString "" ].

(** [rootCmd.Flags()]: lines 141-160, defaults in pflag's [String()] form. *)
Definition localFlagDecls : list Flag :=
  [ newFlag "memory-size" "m" TInt "10000";
    newFlag "update-interval" "u" TDuration "1s";
    newFlag "log-buffer" "b" TInt "1000";
    newFlag "test-mode" "t" TBool "false";
    newFlag "version" "v" TBool "false";
    newFlag "ai-model" "" TString "";
    newFlag "file" "f" TStringSlice "[]";
    newFlag "follow" "" TBool "false";
    newFlag "otlp-enabled" "" TBool "false";
    newFlag "otlp-grpc-port" "" TInt "4317";
    newFlag "otlp-http-port" "" TInt "4318";
    newFlag "vmlogs-url" "" TString "";
    newFlag "vmlogs-user" "" TString "";
    newFlag "vmlogs-password" "" TString "";
    newFlag "vmlogs-query" "" TString "*";
    newFlag "skin" "s" TString "default";
    newFlag "stop-words" "" TStringSlice "[]";
    newFlag "format" "" TString "";
    newFlag "disable-version-check" "" TBool "false";
    newFlag "reverse-scroll-wheel" "" TBool "false" ].

(** The [viper.BindPFlag(key, rootCmd.Flags().Lookup(name))] calls of
    lines 163-181, as (key, name) pairs. *)
Definition bindCalls : list (string * string) :=
  [ ("memory-size", "memory-size");
    ("update-interval", "update-interval");
    ("log-buffer", "log-buffer");
    ("test-mode", "test-mode");
    ("ai-model", "ai-model");
    ("files", "file");
    ("follow", "follow");
    ("otlp-enabled", "otlp-enabled");
    ("otlp-grpc-port", "otlp-grpc-port");
    ("otlp-http-port", "otlp-http-port");
    ("vmlogs-url", "vmlogs-url");
    ("vmlogs-user", "vmlogs-user");
    ("vmlogs-password", "vmlogs-password");
    ("vmlogs-query", "vmlogs-query");
    ("skin", "skin");
    ("stop-words", "stop-words");
    ("format", "format");
    ("disable-version-check", "disable-version-check");
    ("reverse-scroll-wheel", "reverse-scroll-wheel") ].

(** The kinds of the fields of [Config]. *)
Inductive Kind := KInt | KDuration | KBool | KString | KStrings.

#[global] Instance Kind_eq_dec : EqDecision Kind.
Proof. solve_decision. Defined.

(** The [mapstructure] tags of [Config], lines 29-48, in field order. *)
Definition structTags : list (string * Kind) :=
  [ ("memory-size", KInt);
    ("update-interval", KDuration);
    ("log-buffer", KInt);
    ("test-mode", KBool);
    ("config", KString);
    ("ai-model", KString);
    ("files", KStrings);
    ("follow", KBool);
    ("otlp-enabled", KBool);
    ("otlp-grpc-port", KInt);
    ("otlp-http-port", KInt);
    ("vmlogs-url", KString);
    ("vmlogs-user", KString);
    ("vmlogs-password", KString);
    ("vmlogs-query", KString);
    ("skin", KString);
    ("stop-words", KStrings);
    ("format", KString);
    ("disable-version-check", KBool);
    ("reverse-scroll-wheel", KBool) ].

(** The keys bound to viper, the flag names and the tagged keys. *)
Definition boundKeys : list string := bindCalls.*1.
Definition flagNames : list string :=
  Name <$> (persistentFlagDecls ++ localFlagDecls).
Definition taggedKeys : list string := structTags.*1.

(** ** Untyped values

    What [viper.Get] returns: the value of a flag after viper's cast, the
    text of an environment variable, or a YAML scalar or sequence of the
    configuration file.  A float is carried as its 64-bit pattern. *)
#[warnings="-register-all"]
Inductive Any :=
| VNil
| VBool (b : bool)
| VInt (n : Z)
| VFloat (bits : Z)
| VStr (s : string)
| VList (l : list Any).

Definition isNil (v : Any) : bool :=
  match v with VNil => true | _ => false end.

(** The first of two optional results, as a chain of Go's
    [if val != nil { return val }]. *)
Definition orElse {A} (first next : option A) : option A :=
  match first with
  | Some x => Some x
  | None => next
  end.

Notation "a <|> b" := (orElse a b) (at level 61, left associativity).

(** ** Library and standard-library conversions

    Functions of packages outside the repository whose result the
    program only passes on; they are left abstract. *)
Class GoLib := {
  (** [cast.ToInt] and [cast.ToBool] on a string (spf13/cast). *)
  cast_ToInt : string -> Z;
  cast_ToBool : string -> bool;
  (** viper's [readAsCSV], its error dropped as [find] does. *)
  readAsCSV : string -> list string;
  (** mapstructure with [WeaklyTypedInput]: conversion of a value of
      another kind to int, bool and string; [None] is the decode error. *)
  weakInt : Any -> option Z;
  weakBool : Any -> option bool;
  weakString : Any -> option string;
  (** [time.ParseDuration], in nanoseconds. *)
  ParseDuration : string -> option Z;
  (** viper's [absPathify] of a configuration directory. *)
  absPathify : string -> string;
  (** [pflag.Value.Set] of a non-string flag: from the flag's type, its
      current [String()], whether it was set before, and the argument,
      the new [String()], or [None] for an invalid argument. *)
  pflag_Set : ValueType -> string -> bool -> string -> option string
}.

(** ** The operating system and the command line *)

(** Outcome of viper reading and parsing one located file.  A loaded
    document is flat: its keys are lower-cased by viper and hold no key
    delimiter [.]; nested mappings, which viper addresses by dotted
    paths, are not modelled. *)
Inductive LoadResult :=
| LoadUnsupported                      (* UnsupportedConfigError *)
| LoadReadError (msg : string)         (* afero.ReadFile failed: missing, unreadable *)
| LoadParseError (msg : string)        (* ConfigParseError *)
| LoadOK (doc : gmap string Any).      (* the document as viper stores it *)

(** What startup reads from outside the program.  The command line is
    given as cobra resolved it to flags of the root command; cobra's own
    [--help] and the subcommand [version] are not modelled. *)
Record World := mkWorld {
  (** the flags given on the command line, in order: long name and argument *)
  w_args : list (string * string);
  (** [os.LookupEnv] *)
  w_env : gmap string string;
  (** [os.UserHomeDir]: the directory, or the error's text *)
  w_home : sum string string;
  (** viper's [searchInPath]: directory, config name, config type *)
  w_search : string -> string -> string -> option string;
  (** reading and parsing a file, given the config type set (if any) *)
  w_load : string -> string -> LoadResult
}.

(** ** viper *)
Module Viper.

(** The fields of [viper.Viper] that the program's calls read or write.
    [override], [env], [kvstore], [defaults] and [aliases] stay empty and
    [allowEmptyEnv] stays false: the program never calls [Set],
    [BindEnv], [SetDefault], [RegisterAlias] or [AllowEmptyEnv]. *)
Record t := mk {
  configFile : string;
  configPaths : list string;
  configName : string;
  configType : string;
  envPrefix : string;
  automaticEnvApplied : bool;
  envKeyReplacer : option Replacer;
  (** key to flag: a reference (the flag's name) into the flag set *)
  pflags : gmap string string;
  config : gmap string Any
}.

(** [viper.New()]. *)
Definition New : t :=
  mk "" [] "config" "" "" false None ∅ ∅.

Definition SetConfigFile (p : string) (v : t) : t :=
  if decide (p = "") then v
  else mk p (configPaths v) (configName v) (configType v) (envPrefix v)
          (automaticEnvApplied v) (envKeyReplacer v) (pflags v) (config v).

Definition AddConfigPath `{GoLib} (p : string) (v : t) : t :=
  if decide (p = "") then v
  else let absin := absPathify p in
       if decide (absin ∈ configPaths v) then v
       else mk (configFile v) (configPaths v ++ [absin]) (configName v)
               (configType v) (envPrefix v) (automaticEnvApplied v)
               (envKeyReplacer v) (pflags v) (config v).

Definition SetConfigType (ty : string) (v : t) : t :=
  if decide (ty = "") then v
  else mk (configFile v) (configPaths v) (configName v) ty (envPrefix v)
          (automaticEnvApplied v) (envKeyReplacer v) (pflags v) (config v).

(** [SetConfigName] also forgets a file set or found before. *)
Definition SetConfigName (n : string) (v : t) : t :=
  if decide (n = "") then v
  else mk "" (configPaths v) n (configType v) (envPrefix v)
          (automaticEnvApplied v) (envKeyReplacer v) (pflags v) (config v).

Definition SetEnvPrefix (p : string) (v : t) : t :=
  if decide (p = "") then v
  else mk (configFile v) (configPaths v) (configName v) (configType v) p
          (automaticEnvApplied v) (envKeyReplacer v) (pflags v) (config v).

Definition AutomaticEnv (v : t) : t :=
  mk (configFile v) (configPaths v) (configName v) (configType v)
     (envPrefix v) true (envKeyReplacer v) (pflags v) (config v).

Definition SetEnvKeyReplacer (r : Replacer) (v : t) : t :=
  mk (configFile v) (configPaths v) (configName v) (configType v)
     (envPrefix v) (automaticEnvApplied v) (Some r) (pflags v) (config v).

(** [BindPFlag(key, flag)]: a nil flag is an error and binds nothing. *)
Definition BindPFlag (key : string) (flag : option string) (v : t) : t :=
  match flag with
  | None => v
  | Some f =>
      mk (configFile v) (configPaths v) (configName v) (configType v)
         (envPrefix v) (automaticEnvApplied v) (envKeyReplacer v)
         (<[ToLower key := f]> (pflags v)) (config v)
  end.

Definition withFile (f : string) (v : t) : t :=
  mk f (configPaths v) (configName v) (configType v) (envPrefix v)
     (automaticEnvApplied v) (envKeyReplacer v) (pflags v) (config v).

Definition withConfig (doc : gmap string Any) (v : t) : t :=
  mk (configFile v) (configPaths v) (configName v) (configType v)
     (envPrefix v) (automaticEnvApplied v) (envKeyReplacer v) (pflags v) doc.

(** Errors of [ReadInConfig]. *)
Inductive ReadError :=
| ConfigFileNotFoundError
| UnsupportedConfigError
| FileReadError (msg : string)
| ConfigParseError (msg : string).

(** [findConfigFile]: the first search path holding a candidate. *)
Fixpoint findConfigFile (w : World) (name ty : string) (paths : list string)
  : option string :=
  match paths with
  | [] => None
  | cp :: rest =>
      match w_search w cp name ty with
      | Some file => Some file
      | None => findConfigFile w name ty rest
      end
  end.

(** [getConfigFile]: the explicit file, else the one found, which is
    then remembered in [configFile]. *)
Definition getConfigFile (w : World) (v : t) : sum (t * string) ReadError :=
  if decide (configFile v = "") then
    match findConfigFile w (configName v) (configType v) (configPaths v) with
    | Some cf => inl (withFile cf v, cf)
    | None => inr ConfigFileNotFoundError
    end
  else inl (v, configFile v).

(** [ReadInConfig]: [config] is replaced only when the file was read
    and parsed. *)
Definition ReadInConfig (w : World) (v : t) : t * option ReadError :=
  match getConfigFile w v with
  | inr e => (v, Some e)
  | inl (v', filename) =>
      match w_load w filename (configType v') with
      | LoadUnsupported => (v', Some UnsupportedConfigError)
      | LoadReadError m => (v', Some (FileReadError m))
      | LoadParseError m => (v', Some (ConfigParseError m))
      | LoadOK doc => (withConfig doc v', None)
      end
  end.

Definition ConfigFileUsed (v : t) : string := configFile v.

(** [mergeWithEnvPrefix]. *)
Definition mergeWithEnvPrefix (v : t) (key : string) : string :=
  if decide (envPrefix v = "") then ToUpper key
  else ToUpper (envPrefix v +:+ "_" +:+ key).

(** The name [getEnv] hands to [os.LookupEnv]. *)
Definition envName (v : t) (key : string) : string :=
  match envKeyReplacer v with
  | Some r => Replace r key
  | None => key
  end.

(** [getEnv]: a variable set to the empty string counts as unset. *)
Definition getEnv (w : World) (v : t) (key : string) : option string :=
  match w_env w !! envName v key with
  | Some val => if decide (val = "") then None else Some val
  | None => None
  end.

(** The value of a flag as [find] casts it from [ValueString()]. *)
Definition flagValue `{GoLib} (f : Flag) : Any :=
  match VType f with
  | TInt => VInt (cast_ToInt (Value f))
  | TBool => VBool (cast_ToBool (Value f))
  | TStringSlice =>
      VList (VStr <$> readAsCSV (TrimSuffix (TrimPrefix (Value f) "[") "]"))
  | TDuration | TString => VStr (Value f)
  end.

(** [find(lcaseKey, flagDefault)] for a key without the key delimiter:
    a changed flag, then the environment, then the configuration file,
    then the bound flag's default.  [VNil] is Go's nil. *)
Definition find `{GoLib} (w : World) (flags : gmap string Flag) (v : t)
    (lcaseKey : string) (flagDefault : bool) : Any :=
  let flag := pflags v !! lcaseKey ≫= (flags !!.) in
  default VNil (
  (* PFlag override *)
  match flag with
  | Some f => if Changed f then Some (flagValue f) else None
  | None => None
  end
  (* Env override next *)
  <|> (if automaticEnvApplied v
       then VStr <$> getEnv w v (mergeWithEnvPrefix v lcaseKey)
       else None)
  (* Config file next *)
  <|> (match config v !! lcaseKey with
       | Some val => if isNil val then None else Some val
       | None => None
       end)
  (* last chance: the flag's default value *)
  <|> (if flagDefault then flagValue <$> flag else None)
  ).

Definition Get `{GoLib} (w : World) (flags : gmap string Flag) (v : t)
    (key : string) : Any :=
  find w flags v (ToLower key) true.

(** [AllKeys]: the bound keys and the keys of the file (as a map to
    unit, the keys of Go's [map[string]bool]). *)
Definition AllKeys (v : t) : gmap string unit :=
  (const () <$> pflags v) ∪ (const () <$> config v).

(** [AllSettings]: every key with its value, nil values left out. *)
Definition AllSettings `{GoLib} (w : World) (flags : gmap string Flag) (v : t)
  : gmap string Any :=
  map_imap (λ k _, let value := Get w flags v k in
                   if isNil value then None else Some value)
           (AllKeys v).

End Viper.

(** ** The typed record and mapstructure's decoding *)

(** [Config], lines 28-49; a [time.Duration] is its nanoseconds. *)
Record Config := mkConfig {
  MemorySize : Z;
  UpdateInterval : Z;
  LogBuffer : Z;
  TestMode : bool;
  ConfigFile : string;
  AIModel : string;
  Files : list string;
  Follow : bool;
  OTLPEnabled : bool;
  OTLPGRPCPort : Z;
  OTLPHTTPPort : Z;
  VmlogsURL : string;
  VmlogsUser : string;
  VmlogsPassword : string;
  VmlogsQuery : string;
  Skin : string;
  StopWords : list string;
  Format : string;
  DisableVersionCheck : bool;
  ReverseScrollWheel : bool
}.

(** A field's value, by kind. *)
Inductive Typed :=
| TyInt (n : Z)
| TyDuration (ns : Z)
| TyBool (b : bool)
| TyString (s : string)
| TyStrings (l : list string).

(** The field of [Config] carrying a tag. *)
Definition fieldByTag (c : Config) (tag : string) : option Typed :=
  if decide (tag = "memory-size") then Some (TyInt (MemorySize c))
  else if decide (tag = "update-interval") then Some (TyDuration (UpdateInterval c))
  else if decide (tag = "log-buffer") then Some (TyInt (LogBuffer c))
  else if decide (tag = "test-mode") then Some (TyBool (TestMode c))
  else if decide (tag = "config") then Some (TyString (ConfigFile c))
  else if decide (tag = "ai-model") then Some (TyString (AIModel c))
  else if decide (tag = "files") then Some (TyStrings (Files c))
  else if decide (tag = "follow") then Some (TyBool (Follow c))
  else if decide (tag = "otlp-enabled") then Some (TyBool (OTLPEnabled c))
  else if decide (tag = "otlp-grpc-port") then Some (TyInt (OTLPGRPCPort c))
  else if decide (tag = "otlp-http-port") then Some (TyInt (OTLPHTTPPort c))
  else if decide (tag = "vmlogs-url") then Some (TyString (VmlogsURL c))
  else if decide (tag = "vmlogs-user") then Some (TyString (VmlogsUser c))
  else if decide (tag = "vmlogs-password") then Some (TyString (VmlogsPassword c))
  else if decide (tag = "vmlogs-query") then Some (TyString (VmlogsQuery c))
  else if decide (tag = "skin") then Some (TyString (Skin c))
  else if decide (tag = "stop-words") then Some (TyStrings (StopWords c))
  else if decide (tag = "format") then Some (TyString (Format c))
  else if decide (tag = "disable-version-check") then Some (TyBool (DisableVersionCheck c))
  else if decide (tag = "reverse-scroll-wheel") then Some (TyBool (ReverseScrollWheel c))
  else None.

Module Mapstructure.
Section Decode.
Context `{GoLib}.

(** [decodeInt], [decodeBool], [decodeString]: a value of the target's
    own kind is stored as it is, anything else goes through the weakly
    typed conversion. *)
Definition decodeInt (v : Any) : option Z :=
  match v with VInt n => Some n | _ => weakInt v end.

Definition decodeBool (v : Any) : option bool :=
  match v with VBool b => Some b | _ => weakBool v end.

Definition decodeString (v : Any) : option string :=
  match v with VStr s => Some s | _ => weakString v end.

(** An element of a slice: nil input leaves the zero value. *)
Definition decodeElem (v : Any) : option string :=
  match v with VNil => Some "" | _ => decodeString v end.

(** viper's decode hook [StringToSliceHookFunc(",")]. *)
Definition StringToSliceHook (raw : string) : list string :=
  if decide (raw = "") then [] else Split raw ",".

(** [decodeSlice] into [[]string], after the hook: a sequence is
    decoded element by element, any other value is lifted to a
    one-element slice. *)
Definition decodeStrings (v : Any) : option (list string) :=
  match v with
  | VStr raw => Some (StringToSliceHook raw)
  | VList l => mapM decodeElem l
  | VNil => Some []
  | _ => mapM decodeElem [v]
  end.

(** viper's decode hook [StringToTimeDurationHookFunc], then [decodeInt]. *)
Definition decodeDuration (v : Any) : option Z :=
  match v with
  | VStr s => ParseDuration s
  | _ => decodeInt v
  end.

Definition decodeField (k : Kind) (v : Any) : option Typed :=
  match k with
  | KInt => TyInt <$> decodeInt v
  | KDuration => TyDuration <$> decodeDuration v
  | KBool => TyBool <$> decodeBool v
  | KString => TyString <$> decodeString v
  | KStrings => TyStrings <$> decodeStrings v
  end.

Definition zeroOf (k : Kind) : Typed :=
  match k with
  | KInt => TyInt 0
  | KDuration => TyDuration 0
  | KBool => TyBool false
  | KString => TyString ""
  | KStrings => TyStrings []
  end.

(** One struct field: a key absent from the input leaves the field at
    its zero value; keys of the input that no field names are unused. *)
Definition decodeTag (input : gmap string Any) (tag : string) (k : Kind)
  : option Typed :=
  match input !! tag with
  | None => Some (zeroOf k)
  | Some v => decodeField k v
  end.

Definition getInt (input : gmap string Any) (tag : string) : Z :=
  match decodeTag input tag KInt with Some (TyInt n) => n | _ => 0%Z end.
Definition getDuration (input : gmap string Any) (tag : string) : Z :=
  match decodeTag input tag KDuration with Some (TyDuration n) => n | _ => 0%Z end.
Definition getBool (input : gmap string Any) (tag : string) : bool :=
  match decodeTag input tag KBool with Some (TyBool b) => b | _ => false end.
Definition getString (input : gmap string Any) (tag : string) : string :=
  match decodeTag input tag KString with Some (TyString s) => s | _ => "" end.
Definition getStrings (input : gmap string Any) (tag : string) : list string :=
  match decodeTag input tag KStrings with Some (TyStrings l) => l | _ => [] end.

(** The tags whose field failed to decode: mapstructure collects the
    errors of all fields and fails when there is one. *)
Definition failing (input : gmap string Any) : list string :=
  (filter (λ f, decodeTag input f.1 f.2 = None) structTags).*1.

(** [Decode] of the settings into a fresh [Config]. *)
Definition Decode (input : gmap string Any) : sum Config (list string) :=
  match failing input with
  | [] =>
      inl {| MemorySize := getInt input "memory-size";
             UpdateInterval := getDuration input "update-interval";
             LogBuffer := getInt input "log-buffer";
             TestMode := getBool input "test-mode";
             ConfigFile := getString input "config";
             AIModel := getString input "ai-model";
             Files := getStrings input "files";
             Follow := getBool input "follow";
             OTLPEnabled := getBool input "otlp-enabled";
             OTLPGRPCPort := getInt input "otlp-grpc-port";
             OTLPHTTPPort := getInt input "otlp-http-port";
             VmlogsURL := getString input "vmlogs-url";
             VmlogsUser := getString input "vmlogs-user";
             VmlogsPassword := getString input "vmlogs-password";
             VmlogsQuery := getString input "vmlogs-query";
             Skin := getString input "skin";
             StopWords := getStrings input "stop-words";
             Format := getString input "format";
             DisableVersionCheck := getBool input "disable-version-check";
             ReverseScrollWheel := getBool input "reverse-scroll-wheel" |}
  | errs => inr errs
  end.

End Decode.
End Mapstructure.

(** ** The program: [init], cobra's flag parsing, [initConfig], [main] *)

(** Go errors the program prints. *)
Inductive GoError :=
| ErrOS (msg : string)
| ErrUnknownFlag (name : string)
| ErrInvalidArgument (name arg : string)
| ErrDecode (tags : list string).

(** A line written by [log.Printf]/[log.Fatalf] or to [os.Stderr]: the
    format and its argument. *)
Inductive Arg := ArgString (s : string) | ArgError (e : GoError).
Inductive Line :=
| LogPrintf (format : string) (a : Arg)
| StderrPrintf (format : string) (a : Arg).

(** How startup ends: the process exits, or cobra enters the application
    body ([RunE: runApp]) with the package variable [cfg] set. *)
Inductive Outcome :=
| Exited (status : Z) (out : list Line)
| RunApp (cfg : Config) (out : list Line).

Definition flagSet (decls : list Flag) : gmap string Flag :=
  list_to_map ((λ f, (Name f, f)) <$> decls).

(** [FlagSet.Lookup]: a pointer to the flag (its name), or nil. *)
Definition Lookup (fs : gmap string Flag) (name : string) : option string :=
  Name <$> fs !! name.

Section Program.
Context `{GoLib}.

(** [init], lines 163-181: viper after the [BindPFlag] calls, each on
    the result of [rootCmd.Flags().Lookup]. *)
Definition init : Viper.t :=
  foldl (λ v b, Viper.BindPFlag b.1 (Lookup (flagSet localFlagDecls) b.2) v)
        Viper.New bindCalls.

(** The flags cobra parses for the root command: local and persistent. *)
Definition declaredFlags : gmap string Flag :=
  flagSet (persistentFlagDecls ++ localFlagDecls).

(** [Flag.Value.Set] and [Changed = true]; a string flag stores the
    argument as it is. *)
Definition setFlag (f : Flag) (arg : string) : option Flag :=
  (λ s, mkFlag (Name f) (Shorthand f) (VType f) (DefValue f) s true) <$>
  match VType f with
  | TString => Some arg
  | t => pflag_Set t (Value f) (Changed f) arg
  end.

(** cobra's [ParseFlags]: stops at the first unknown flag or invalid
    argument. *)
Fixpoint parseFlags (args : list (string * string)) (flags : gmap string Flag)
  : sum (gmap string Flag) GoError :=
  match args with
  | [] => inl flags
  | (name, arg) :: rest =>
      match flags !! name with
      | None => inr (ErrUnknownFlag name)
      | Some f =>
          match setFlag f arg with
          | None => inr (ErrInvalidArgument name arg)
          | Some f' => parseFlags rest (<[name := f']> flags)
          end
      end
  end.

(** The package variable [cfgFile]: [StringVar] makes it the storage
    of the flag [config]. *)
Definition cfgFile (flags : gmap string Flag) : string :=
  from_option Value "" (flags !! "config").

(** [initConfig], lines 188-202: where the configuration file is. *)
Definition locate (w : World) (cfgFile : string) (v : Viper.t)
  : Viper.t * list Line :=
  if decide (cfgFile ≠ "") then
    (Viper.SetConfigFile cfgFile v, [])
  else
    match w_home w with
    | inr err =>
        (v, [LogPrintf "Error finding home directory: %v" (ArgError (ErrOS err))])
    | inl home =>
        let configDir := home +:+ "/.config/gonzo" in
        (Viper.SetConfigName "config"
           (Viper.SetConfigType "yaml"
              (Viper.AddConfigPath configDir v)), [])
    end.

(** [initConfig], lines 204-207. *)
Definition envSetup (v : Viper.t) : Viper.t :=
  Viper.SetEnvKeyReplacer (NewReplacer "-" "_")
    (Viper.AutomaticEnv (Viper.SetEnvPrefix "GONZO" v)).

(** [initConfig], lines 209-212: the error of [ReadInConfig] is dropped. *)
Definition readConfig (w : World) (v : Viper.t) : Viper.t * list Line :=
  match Viper.ReadInConfig w v with
  | (v', None) =>
      (v', [LogPrintf "Using config file: %s" (ArgString (Viper.ConfigFileUsed v'))])
  | (v', Some _) => (v', [])
  end.

(** viper as [initConfig] leaves it before [Unmarshal]. *)
Definition configured (w : World) (flags : gmap string Flag) : Viper.t * list Line :=
  let '(v1, out1) := locate w (cfgFile flags) init in
  let '(v2, out2) := readConfig w (envSetup v1) in
  (v2, out1 ++ out2).

(** The merged document [Unmarshal] decodes. *)
Definition settings (w : World) (flags : gmap string Flag) : gmap string Any :=
  Viper.AllSettings w flags (configured w flags).1.

(** [viper.Unmarshal(&cfg)]. *)
Definition Unmarshal (w : World) (flags : gmap string Flag) : sum Config GoError :=
  match Mapstructure.Decode (settings w flags) with
  | inl c => inl c
  | inr tags => inr (ErrDecode tags)
  end.

(** [initConfig]: [log.Fatalf] prints and exits with status 1. *)
Definition initConfig (w : World) (flags : gmap string Flag) : Outcome :=
  let out := (configured w flags).2 in
  match Unmarshal w flags with
  | inr err =>
      Exited 1 (out ++ [LogPrintf "Unable to decode config: %v" (ArgError err)])
  | inl c => RunApp c out
  end.

(** [main]: [rootCmd.Execute()] parses the flags, runs the initializer
    [initConfig] and then the body; an error it returns goes to
    standard error and the exit status is 1. *)
Definition main (w : World) : Outcome :=
  match parseFlags (w_args w) declaredFlags with
  | inr err => Exited 1 [StderrPrintf "Error: %v\n" (ArgError err)]
  | inl flags => initConfig w flags
  end.

End Program.

(** ** An executable instance of [GoLib]

    Used to run the model on examples: decimal integers, Go's boolean
    tokens, durations written as a whole number and a unit, CSV without
    quoting, absolute configuration directories. *)
Module Sample.

Definition digit (c : ascii) : option Z :=
  let n := nat_of_ascii c in
  if (48 <=? n)%nat && (n <=? 57)%nat then Some (Z.of_nat (n - 48)) else None.

Fixpoint digits (acc : Z) (s : string) : option Z :=
  match s with
  | EmptyString => Some acc
  | String c s' =>
      match digit c with
      | Some d => digits (10 * acc + d) s'
      | None => None
      end
  end.

(** An optional sign and at least one decimal digit. *)
Definition atoi (s : string) : option Z :=
  match s with
  | EmptyString => None
  | String "-" (String c r) => Z.opp <$> digits 0 (String c r)
  | String "+" (String c r) => digits 0 (String c r)
  | _ => digits 0 s
  end.

(** [strconv.ParseBool]. *)
Definition ParseBool (s : string) : option bool :=
  if bool_decide (s ∈ ["1"; "t"; "T"; "TRUE"; "true"; "True"]) then Some true
  else if bool_decide (s ∈ ["0"; "f"; "F"; "FALSE"; "false"; "False"]) then Some false
  else None.

(** The leading decimal digits of a string and what follows them. *)
Fixpoint leadingDigits (s : string) : string * string :=
  match s with
  | EmptyString => (EmptyString, EmptyString)
  | String c s' =>
      match digit c with
      | Some _ => let '(ds, rest) := leadingDigits s' in (String c ds, rest)
      | None => (EmptyString, s)
      end
  end.

Definition unitNanos (u : string) : option Z :=
  if decide (u = "ns") then Some 1%Z
  else if decide (u = "us") then Some 1000%Z
  else if decide (u = "ms") then Some 1000000%Z
  else if decide (u = "s") then Some 1000000000%Z
  else if decide (u = "m") then Some 60000000000%Z
  else if decide (u = "h") then Some 3600000000000%Z
  else None.

Definition parseDuration (s : string) : option Z :=
  let '(ds, u) := leadingDigits s in
  n ← (if decide (ds = "") then None else digits 0 ds);
  k ← unitNanos u;
  Some (n * k)%Z.

Definition csv (s : string) : list string :=
  if decide (s = "") then [] else Split s ",".

Definition setValue (t : ValueType) (current : string) (changed : bool) (arg : string)
  : option string :=
  match t with
  | TInt => (λ _, arg) <$> atoi arg
  | TBool => (λ b : bool, if b then "true" else "false") <$> ParseBool arg
  | TDuration => (λ _, arg) <$> parseDuration arg
  | TString => Some arg
  | TStringSlice =>
      let old := if changed then csv (TrimSuffix (TrimPrefix current "[") "]") else [] in
      Some ("[" +:+ Join (old ++ csv arg) "," +:+ "]")
  end.

#[global] Instance lib : GoLib := {|
  cast_ToInt s := default 0%Z (atoi s);
  cast_ToBool s := default false (ParseBool s);
  readAsCSV := csv;
  weakInt v :=
    match v with
    | VBool b => Some (if b then 1 else 0)%Z
    | VStr s => if decide (s = "") then Some 0%Z else atoi s
    | _ => None
    end;
  weakBool v :=
    match v with
    | VInt n => Some (negb (n =? 0)%Z)
    | VStr s => if decide (s = "") then Some false else ParseBool s
    | _ => None
    end;
  weakString v :=
    match v with
    | VBool b => Some (if b then "1" else "0")
    | _ => None
    end;
  ParseDuration := parseDuration;
  absPathify p := p;
  pflag_Set := setValue
|}.

End Sample.

(** ** Definitions used by the statements *)

(** The transformation in the order the specification words it:
    upper-case the key, replace its hyphens, prepend the prefix. *)
Definition specEnvName (key : string) : string :=
  "GONZO_" +:+ Replace (NewReplacer "-" "_") (ToUpper key).

(** The name [find] looks up for a key, in a viper state. *)
Definition envVarFor (v : Viper.t) (key : string) : string :=
  Viper.envName v (Viper.mergeWithEnvPrefix v key).

(** The kind of the [Config] field that takes a flag of a pflag type. *)
Definition kindOfType (t : ValueType) : Kind :=
  match t with
  | TInt => KInt
  | TDuration => KDuration
  | TBool => KBool
  | TString => KString
  | TStringSlice => KStrings
  end.

(** A byte of a setting key: anything but an upper-case letter or an
    underscore. *)
Definition keyByte (c : ascii) : bool :=
  negb (isUpperAscii c) && negb (Ascii.eqb c "_").

Definition toEnvByte (c : ascii) : ascii :=
  replaceByte (NewReplacer "-" "_") (upperAscii c).

Definition ofEnvByte (c : ascii) : ascii :=
  lowerAscii (replaceByte (NewReplacer "_" "-") c).

(** The keys the program declares: the keys bound to viper, the tags of
    [Config] and the names of the flags. *)
Definition declaredKeys : list string := boundKeys ++ taggedKeys ++ flagNames.

(** The precedence merge in the specification's words: the first
    present value among flag, environment and file, else the default. *)
Definition firstPresent (flagVal envVal fileVal : option Any) (defaultVal : Any)
  : Any :=
  match flagVal, envVal, fileVal with
  | Some x, _, _ => x
  | None, Some x, _ => x
  | None, None, Some x => x
  | None, None, None => defaultVal
  end.

Section Readers.
Context `{GoLib}.

(** The three source readers. *)
Definition flagReader (f : Flag) : option Any :=
  if Changed f then Some (Viper.flagValue f) else None.

Definition envReader (w : World) (key : string) : option Any :=
  match w_env w !! specEnvName key with
  | Some val => if decide (val = "") then None else Some (VStr val)
  | None => None
  end.

(** The document [initConfig] got from the file, empty if it got none. *)
Definition fileDoc (w : World) (flags : gmap string Flag) : gmap string Any :=
  Viper.config (configured w flags).1.

Definition fileReader (w : World) (flags : gmap string Flag) (key : string)
  : option Any :=
  match fileDoc w flags !! key with
  | Some val => if isNil val then None else Some val
  | None => None
  end.

(** The field value [Decode] stores for a tag. *)
Definition typedGet (input : gmap string Any) (tag : string) (k : Kind) : Typed :=
  match k with
  | KInt => TyInt (Mapstructure.getInt input tag)
  | KDuration => TyDuration (Mapstructure.getDuration input tag)
  | KBool => TyBool (Mapstructure.getBool input tag)
  | KString => TyString (Mapstructure.getString input tag)
  | KStrings => TyStrings (Mapstructure.getStrings input tag)
  end.

End Readers.

(** The same world with another environment. *)
Definition withEnv (env : gmap string string) (w : World) : World :=
  mkWorld (w_args w) env (w_home w) (w_search w) (w_load w).

(** The same world, whose configuration file has one more entry. *)
Definition withFileKey (k : string) (val : Any) (w : World) : World :=
  mkWorld (w_args w) (w_env w) (w_home w) (w_search w)
          (λ file ty,
             match w_load w file ty with
             | LoadOK doc => LoadOK (<[k := val]> doc)
             | r => r
             end).

(** One identifier for a key across the sources: the flag bound to the
    key carries the key as its name, and the key is a flag name and a
    tag of [Config]. *)
Definition sameIdentifier (key : string) : Prop :=
  Viper.pflags init !! key = Some key ∧ key ∈ flagNames ∧ key ∈ taggedKeys.

Definition is_inl {A B} (x : A + B) : bool :=
  match x with inl _ => true | inr _ => false end.

(** ** Sample worlds *)

(** The model on a command line, an environment and a file that all set
    [memory-size]: the flag wins; [update-interval] comes from the file,
    [stop-words] from the environment, [vmlogs-query] from its default,
    and the empty [GONZO_SKIN] does not hide the file's [skin]. *)
Definition sampleWorld : World :=
  mkWorld [("memory-size", "5000"); ("file", "a.log"); ("file", "b.log")]
          {[ "GONZO_MEMORY_SIZE" := "8000";
             "GONZO_STOP_WORDS" := "foo,bar,baz";
             "GONZO_SKIN" := "" ]}
          (inl "/home/u")
          (λ dir name ty,
             if decide (dir = "/home/u/.config/gonzo")
             then Some "/home/u/.config/gonzo/config.yml" else None)
          (λ file ty,
             LoadOK {[ "memory-size" := VInt 2000;
                       "skin" := VStr "dracula";
                       "update-interval" := VStr "3s";
                       "theme" := VStr "dark" ]}).

Definition sampleFlags : gmap string Flag :=
  match parseFlags (w_args sampleWorld) declaredFlags with
  | inl flags => flags
  | inr _ => ∅
  end.

(** Worlds for the branches of [initConfig]: an explicit [--config]
    whose file does not parse, and no home directory. *)
Definition brokenFileWorld : World :=
  mkWorld [("config", "/etc/gonzo.yml")]
          {[ "GONZO_SKIN" := "monokai" ]}
          (inl "/home/u")
          (λ dir name ty, None)
          (λ file ty,
             if decide (file = "/etc/gonzo.yml")
             then LoadParseError "yaml: did not find expected key"
             else LoadReadError "no such file or directory").

Definition brokenFileFlags : gmap string Flag :=
  match parseFlags (w_args brokenFileWorld) declaredFlags with
  | inl flags => flags
  | inr _ => ∅
  end.

Definition noHomeWorld : World :=
  mkWorld [] {[ "GONZO_OTLP_GRPC_PORT" := "notanumber" ]}
          (inr "$HOME is not defined")
          (λ dir name ty, None)
          (λ file ty, LoadReadError "no such file or directory").

(** Two ways of naming the same configuration file: the variable
    [GONZO_CONFIG], and the flag [--config]. *)
Definition configFileLoad (file ty : string) : LoadResult :=
  if decide (file = "/etc/gonzo.yml")
  then LoadOK {[ "skin" := VStr "dracula" ]}
  else LoadReadError "no such file or directory".


Definition flagConfigWorld : World :=
  mkWorld [("config", "/etc/gonzo.yml")] ∅
          (inr "$HOME is not defined") (λ dir name ty, None) configFileLoad.

Definition flagConfigFlags : gmap string Flag :=
  <["config" := mkFlag "config" "" TString "" "/etc/gonzo.yml" true]> declaredFlags.

(** ** The version command and the build variables *)

(** The build variables of lines 15-20, set by ldflags during build. *)
Record Build := mkBuild {
  version : string;
  commit : string;
  buildTime : string;
  goVersion : string
}.

(** Their values in a build without ldflags. *)
Definition devBuild : Build := mkBuild "dev" "unknown" "unknown" "unknown".

(** [GetVersionInfo], lines 23-25. *)
Definition GetVersionInfo (b : Build) : string * string :=
  (version b, commit b).

(** A [fmt.Printf] to standard output: the format and its arguments. *)
Inductive Printed := StdoutPrintf (format : string) (args : list string).

(** [versionCmd.Run], lines 126-132. *)
Definition versionCmdRun (b : Build) : list Printed :=
  [ StdoutPrintf "Gonzo - Log Analysis TUI\n" [];
    StdoutPrintf "  Version:    %s\n" [version b];
    StdoutPrintf "  Commit:     %s\n" [commit b];
    StdoutPrintf "  Built:      %s\n" [buildTime b];
    StdoutPrintf "  Go version: %s\n" [goVersion b] ].

(** How [gonzo version] ends. *)
Inductive VersionOutcome :=
| VersionExited (status : Z) (out : list Line)
| VersionPrinted (log : list Line) (stdout : list Printed).

Section VersionCommand.
Context `{GoLib}.

(** [rootCmd.Execute()] on the subcommand added in line 184: cobra
    parses the arguments against the flags [version] inherits (the
    persistent ones), runs the initializers registered with
    [cobra.OnInitialize] (line 137) and then [versionCmd.Run].  The
    flags of the root command stay as declared.  Here [w_args] holds the
    flags given with the subcommand. *)
Definition executeVersion (b : Build) (w : World) : VersionOutcome :=
  match parseFlags (w_args w) (flagSet persistentFlagDecls) with
  | inr err => VersionExited 1 [StderrPrintf "Error: %v\n" (ArgError err)]
  | inl inherited =>
      match initConfig w (inherited ∪ flagSet localFlagDecls) with
      | Exited status out => VersionExited status out
      | RunApp _ out => VersionPrinted out (versionCmdRun b)
      end
  end.

(** [Config] when every key takes its flag's default; [interval] is the
    parsed default of [update-interval]. *)
Definition defaultConfig (interval : Z) : Config :=
  {| MemorySize := cast_ToInt "10000";
     UpdateInterval := interval;
     LogBuffer := cast_ToInt "1000";
     TestMode := cast_ToBool "false";
     ConfigFile := "";
     AIModel := "";
     Files := readAsCSV "";
     Follow := cast_ToBool "false";
     OTLPEnabled := cast_ToBool "false";
     OTLPGRPCPort := cast_ToInt "4317";
     OTLPHTTPPort := cast_ToInt "4318";
     VmlogsURL := "";
     VmlogsUser := "";
     VmlogsPassword := "";
     VmlogsQuery := "*";
     Skin := "default";
     StopWords := readAsCSV "";
     Format := "";
     DisableVersionCheck := cast_ToBool "false";
     ReverseScrollWheel := cast_ToBool "false" |}.

End VersionCommand.

#[global] Instance Flag_eq_dec : EqDecision Flag.
Proof. solve_decision. Defined.

(** The same world with another home directory and another content of
    the search paths. *)
Definition withHomeSearch (home : sum string string)
    (search : string -> string -> string -> option string) (w : World) : World :=
  mkWorld (w_args w) (w_env w) home search (w_load w).

(** The bytes of a key as the program writes them (lower-case letters,
    digits, hyphens) and of a name a shell can export (upper-case
    letters, digits, underscores). *)
Definition isDigitAscii (c : ascii) : bool :=
  let n := nat_of_ascii c in (48 <=? n)%nat && (n <=? 57)%nat.

Definition keyChar (c : ascii) : bool :=
  isLowerAscii c || isDigitAscii c || Ascii.eqb c "-".

Definition envNameChar (c : ascii) : bool :=
  isUpperAscii c || isDigitAscii c || Ascii.eqb c "_".

(** A world with nothing configured: no flag, no variable, no home
    directory. *)
Definition bareWorld : World :=
  mkWorld [] ∅ (inr "$HOME is not defined") (λ dir name ty, None)
          (λ file ty, LoadReadError "no such file or directory").

(** A flag and a malformed variable for the same key. *)
Definition flagOverEnvWorld : World :=
  mkWorld [("otlp-grpc-port", "4000")] ∅ (inr "$HOME is not defined")
          (λ dir name ty, None) (λ file ty, LoadReadError "no such file or directory").

(** * Properties *)

(** ** Byte-wise string functions *)

Lemma mapBytes_app (f : ascii -> ascii) (a b : string) :
  mapBytes f (a +:+ b) = mapBytes f a +:+ mapBytes f b.
Proof. induction a as [|c a IH]; simpl; [done | by rewrite IH]. Qed.

Lemma mapBytes_inj_on (f : ascii -> ascii) (p : ascii -> bool) :
  (∀ c d, p c = true → p d = true → f c = f d → c = d) →
  ∀ a b, allBytes p a = true → allBytes p b = true →
         mapBytes f a = mapBytes f b → a = b.
Proof.
  intros Hf a. induction a as [|c a IH]; intros [|d b] Ha Hb Heq;
    simpl in *; try done.
  apply andb_true_iff in Ha as [Hc Ha], Hb as [Hd Hb].
  injection Heq as Hcd Hab.
  f_equal; [by apply Hf | by apply IH].
Qed.

Lemma append_inj_l (p a b : string) : p +:+ a = p +:+ b → a = b.
Proof. induction p as [|c p IH]; simpl; [done | intros [= ?]; auto]. Qed.

(** ** viper as [initConfig] sets it up *)

Section Startup.
Context `{GoLib}.

(** [locate] and [readConfig] leave the bindings and the environment
    settings alone. *)
Lemma locate_pflags w c v : Viper.pflags (locate w c v).1 = Viper.pflags v.
Proof.
  unfold locate, Viper.SetConfigFile, Viper.SetConfigName, Viper.SetConfigType,
    Viper.AddConfigPath.
  repeat case_match; done.
Qed.

Lemma readConfig_fields w v :
  let v' := (readConfig w v).1 in
  Viper.pflags v' = Viper.pflags v ∧
  Viper.envPrefix v' = Viper.envPrefix v ∧
  Viper.automaticEnvApplied v' = Viper.automaticEnvApplied v ∧
  Viper.envKeyReplacer v' = Viper.envKeyReplacer v.
Proof.
  unfold readConfig, Viper.ReadInConfig, Viper.getConfigFile.
  repeat case_match; simplify_eq/=; done.
Qed.

Lemma envSetup_fields v :
  Viper.pflags (envSetup v) = Viper.pflags v ∧
  Viper.config (envSetup v) = Viper.config v ∧
  Viper.envPrefix (envSetup v) = "GONZO" ∧
  Viper.automaticEnvApplied (envSetup v) = true ∧
  Viper.envKeyReplacer (envSetup v) = Some (NewReplacer "-" "_").
Proof. done. Qed.

Lemma configured_fst w flags :
  (configured w flags).1 =
  (readConfig w (envSetup (locate w (cfgFile flags) init).1)).1.
Proof.
  unfold configured.
  destruct (locate _ _ _) as [v1 o1]. cbn [fst].
  by destruct (readConfig _ _) as [v2 o2].
Qed.

Lemma configured_snd w flags :
  (configured w flags).2 =
  (locate w (cfgFile flags) init).2 ++
  (readConfig w (envSetup (locate w (cfgFile flags) init).1)).2.
Proof.
  unfold configured.
  destruct (locate _ _ _) as [v1 o1]. cbn [fst snd].
  by destruct (readConfig _ _) as [v2 o2].
Qed.

Lemma configured_env w flags :
  let v := (configured w flags).1 in
  Viper.envPrefix v = "GONZO" ∧
  Viper.automaticEnvApplied v = true ∧
  Viper.envKeyReplacer v = Some (NewReplacer "-" "_").
Proof.
  cbv zeta. rewrite configured_fst.
  generalize (locate w (cfgFile flags) init).1. intros v.
  destruct (readConfig_fields w (envSetup v)) as (_ & -> & -> & ->).
  by destruct (envSetup_fields v) as (_ & _ & -> & -> & ->).
Qed.

Lemma configured_pflags w flags :
  Viper.pflags (configured w flags).1 = Viper.pflags init.
Proof.
  rewrite configured_fst, <- (locate_pflags w (cfgFile flags) init).
  generalize (locate w (cfgFile flags) init).1. intros v.
  by destruct (readConfig_fields w (envSetup v)) as (-> & _).
Qed.

Lemma envVarFor_configured w flags key :
  envVarFor (configured w flags).1 key = specEnvName key.
Proof.
  destruct (configured_env w flags) as (Hp & _ & Hr). revert Hp Hr.
  generalize (configured w flags).1. intros v Hp Hr.
  unfold envVarFor, Viper.envName, Viper.mergeWithEnvPrefix.
  rewrite Hr, Hp. cbn [decide].
  unfold specEnvName, Replace, ToUpper.
  change ("GONZO" +:+ "_" +:+ key) with ("GONZO_" +:+ key).
  rewrite !mapBytes_app. done.
Qed.

(** What the environment contributes for a key: the value of the
    variable of that name, unless it is empty. *)
Lemma getEnv_configured w flags key :
  Viper.getEnv w (configured w flags).1
               (Viper.mergeWithEnvPrefix (configured w flags).1 key) =
  (w_env w !! specEnvName key) ≫= (λ val, if decide (val = "") then None else Some val).
Proof.
  unfold Viper.getEnv. fold (envVarFor (configured w flags).1 key).
  rewrite envVarFor_configured. by destruct (w_env w !! specEnvName key).
Qed.

End Startup.

(** ** The bindings made by [init] *)

(** A decidable closed fact, by evaluation. *)
Ltac by_eval := apply (bool_decide_unpack _); vm_compute; exact I.

Lemma pflags_init : Viper.pflags init = list_to_map bindCalls.
Proof. by_eval. Qed.

Lemma bindCalls_NoDup : NoDup bindCalls.*1.
Proof. by_eval. Qed.

Lemma pflags_init_lookup (key name : string) :
  Viper.pflags init !! key = Some name ↔ (key, name) ∈ bindCalls.
Proof.
  rewrite pflags_init. symmetry. apply elem_of_list_to_map, bindCalls_NoDup.
Qed.

(** Case analysis on a member of a list given in full. *)
Ltac each_member H :=
  repeat (apply elem_of_cons in H as [H | H]; [simplify_eq |]);
  try (by apply elem_of_nil in H).

(** Every bound key names a declared local flag, unchanged before
    parsing, of the kind of the key's struct field. *)
Lemma bound_flag_declared (key name : string) :
  (key, name) ∈ bindCalls →
  ∃ d, flagSet localFlagDecls !! name = Some d ∧
       declaredFlags !! name = Some d ∧ Name d = name ∧
       Changed d = false ∧ Value d = DefValue d ∧
       (key, kindOfType (VType d)) ∈ structTags.
Proof.
  intros Hin. each_member Hin; eexists;
    (split; [by vm_compute |]); (split; [by vm_compute |]);
    repeat split; by_eval.
Qed.

(** ** C2, C8: environment variable names *)

Lemma ofEnvByte_toEnvByte (c : ascii) :
  keyByte c = true → ofEnvByte (toEnvByte c) = c.
Proof.
  destruct c as [[] [] [] [] [] [] [] []]; vm_compute; congruence.
Qed.

Lemma toEnvByte_inj (c d : ascii) :
  keyByte c = true → keyByte d = true → toEnvByte c = toEnvByte d → c = d.
Proof.
  intros Hc Hd Heq.
  rewrite <- (ofEnvByte_toEnvByte c Hc), <- (ofEnvByte_toEnvByte d Hd).
  by rewrite Heq.
Qed.

Lemma mapBytes_mapBytes (f g : ascii -> ascii) (s : string) :
  mapBytes f (mapBytes g s) = mapBytes (λ c, f (g c)) s.
Proof. induction s as [|c s IH]; simpl; [done | by rewrite IH]. Qed.

Lemma specEnvName_inj (k1 k2 : string) :
  allBytes keyByte k1 = true → allBytes keyByte k2 = true →
  specEnvName k1 = specEnvName k2 → k1 = k2.
Proof.
  intros H1 H2 Heq. apply append_inj_l in Heq.
  unfold Replace, ToUpper in Heq. rewrite !mapBytes_mapBytes in Heq.
  eapply (mapBytes_inj_on _ keyByte); [| done | done | exact Heq].
  apply toEnvByte_inj.
Qed.

Lemma declaredKeys_bytes (k : string) :
  k ∈ declaredKeys → allBytes keyByte k = true.
Proof.
  assert (Forall (λ k, allBytes keyByte k = true) declaredKeys) as Hall.
  { by_eval. }
  intros Hk. by apply (proj1 (list.Forall_forall _ _) Hall).
Qed.

(** C2: for every key, the environment variable [find] looks up after
    [initConfig] set viper up is the fixed prefix [GONZO_] followed by the
    upper-cased key with every hyphen replaced by an underscore, and the
    value it contributes is that variable's (a variable set to the empty
    string contributes none); the key [vmlogs-user] is looked up as
    [GONZO_VMLOGS_USER]. *)
Theorem env_name_of_key `{GoLib} (w : World) (flags : gmap string Flag)
    (key : string) :
  let v := (configured w flags).1 in
  Viper.automaticEnvApplied v = true ∧
  envVarFor v key = "GONZO_" +:+ Replace (NewReplacer "-" "_") (ToUpper key) ∧
  Viper.getEnv w v (Viper.mergeWithEnvPrefix v key) =
    (w_env w !! specEnvName key) ≫= (λ val, if decide (val = "") then None else Some val) ∧
  specEnvName "vmlogs-user" = "GONZO_VMLOGS_USER".
Proof.
  cbv zeta. destruct (configured_env w flags) as (_ & Ha & _).
  split; [exact Ha |]. split; [apply envVarFor_configured |].
  split; [apply getEnv_configured | done].
Qed.

(** C8: two distinct declared keys are never looked up under the same
    environment variable name. *)
Theorem env_names_distinct `{GoLib} (w : World) (flags : gmap string Flag)
    (k1 k2 : string) :
  k1 ∈ declaredKeys → k2 ∈ declaredKeys → k1 ≠ k2 →
  envVarFor (configured w flags).1 k1 ≠ envVarFor (configured w flags).1 k2.
Proof.
  intros H1 H2 Hne Heq. apply Hne.
  rewrite !envVarFor_configured in Heq.
  apply specEnvName_inj; auto using declaredKeys_bytes.
Qed.

(** ** Flag parsing *)

Section Parsing.
Context `{GoLib}.

Lemma setFlag_fields f arg f' :
  setFlag f arg = Some f' →
  Name f' = Name f ∧ VType f' = VType f ∧ DefValue f' = DefValue f ∧
  Changed f' = true.
Proof.
  unfold setFlag. intros Hs. apply fmap_Some in Hs as (s & _ & ->). done.
Qed.

(** After a successful parse every flag of the set is still there with
    its declaration; it is changed when it was given on the command
    line, and untouched otherwise. *)
Lemma parseFlags_spec args : ∀ flags0 flags,
  parseFlags args flags0 = inl flags →
  ∀ name d, flags0 !! name = Some d →
    ∃ f, flags !! name = Some f ∧
         VType f = VType d ∧ DefValue f = DefValue d ∧
         (name ∈ args.*1 → Changed f = true) ∧
         (name ∉ args.*1 → f = d).
Proof.
  induction args as [|[n a] rest IH]; intros flags0 flags Hp name d Hd.
  - injection Hp as <-. exists d. repeat split; auto.
    intros Hin. by apply elem_of_nil in Hin.
  - cbn [parseFlags] in Hp.
    destruct (flags0 !! n) as [f0|] eqn:Hn; [| done].
    destruct (setFlag f0 a) as [f'|] eqn:Hs; [| done].
    destruct (setFlag_fields _ _ _ Hs) as (_ & Ht & Hdef & Hch).
    destruct (decide (name = n)) as [-> | Hne].
    + assert (d = f0) as -> by congruence.
      destruct (IH _ _ Hp n f' (lookup_insert_eq _ _ _))
        as (f & Hf & Hft & Hfd & Hin & Hout).
      exists f. split; [done |]. split; [congruence |]. split; [congruence |].
      split.
      * intros _. destruct (decide (n ∈ rest.*1)) as [Hr | Hr]; [by apply Hin |].
        by rewrite (Hout Hr).
      * intros Hnot. exfalso. apply Hnot. cbn. left.
    + destruct (IH _ _ Hp name d) as (f & Hf & Hft & Hfd & Hin & Hout).
      { by rewrite lookup_insert_ne. }
      exists f. repeat split; auto.
      * intros Hin'. apply Hin. cbn in Hin'.
        apply elem_of_cons in Hin' as [? | ?]; [done | done].
      * intros Hnot. apply Hout. intros Hr. apply Hnot. cbn. by right.
Qed.

End Parsing.

(** ** Resolution of a key *)

Lemma lowerAscii_keyByte (c : ascii) : keyByte c = true → lowerAscii c = c.
Proof.
  unfold keyByte, lowerAscii. by destruct (isUpperAscii c).
Qed.

Lemma ToLower_key (k : string) : allBytes keyByte k = true → ToLower k = k.
Proof.
  unfold ToLower. induction k as [|c k IH]; cbn; [done |].
  intros [Hc Hk]%andb_true_iff.
  by rewrite lowerAscii_keyByte, IH.
Qed.

Section Resolution.
Context `{GoLib}.

Lemma flagValue_not_nil (f : Flag) : isNil (Viper.flagValue f) = false.
Proof. unfold Viper.flagValue. by destruct (VType f). Qed.

Lemma firstPresent_not_nil a b c d :
  (∀ x, a = Some x → isNil x = false) →
  (∀ x, b = Some x → isNil x = false) →
  (∀ x, c = Some x → isNil x = false) →
  isNil d = false →
  isNil (firstPresent a b c d) = false.
Proof. destruct a, b, c; simpl; auto. Qed.

(** [find] on a key bound to a flag, after [initConfig] set viper up. *)
Lemma find_bound w flags key name f :
  (key, name) ∈ bindCalls → flags !! name = Some f →
  Viper.find w flags (configured w flags).1 key true =
  firstPresent (flagReader f) (envReader w key) (fileReader w flags key)
               (Viper.flagValue f).
Proof.
  intros Hb Hf. unfold Viper.find.
  rewrite configured_pflags, (proj2 (pflags_init_lookup key name) Hb).
  cbn [mbind option_bind]. rewrite Hf.
  destruct (configured_env w flags) as (_ & -> & _).
  rewrite getEnv_configured.
  unfold flagReader, envReader, fileReader, fileDoc.
  destruct (Changed f); [done |].
  destruct (w_env w !! specEnvName key) as [val|]; cbn.
  - destruct (decide (val = "")); cbn; [| done].
    destruct (Viper.config _ !! key) as [x|]; [by destruct (isNil x) | done].
  - destruct (Viper.config _ !! key) as [x|]; [by destruct (isNil x) | done].
Qed.

(** The merged document at a bound key. *)
Lemma settings_bound w flags key name f :
  (key, name) ∈ bindCalls → flags !! name = Some f →
  settings w flags !! key =
  Some (firstPresent (flagReader f) (envReader w key) (fileReader w flags key)
                     (Viper.flagValue f)).
Proof.
  intros Hb Hf. unfold settings, Viper.AllSettings, Viper.AllKeys.
  rewrite map_lookup_imap, lookup_union, !lookup_fmap, configured_pflags.
  rewrite (proj2 (pflags_init_lookup key name) Hb). cbn.
  assert (ToLower key = key) as Hk.
  { apply ToLower_key, declaredKeys_bytes. unfold declaredKeys, boundKeys.
    apply elem_of_app. left. apply list_elem_of_fmap. by exists (key, name). }
  replace (Some () ∪ _) with (Some ()).
  2:{ by destruct (_ <$> _). }
  cbn. unfold Viper.Get. rewrite Hk, (find_bound _ _ _ _ _ Hb Hf).
  rewrite firstPresent_not_nil; [done | | | | apply flagValue_not_nil].
  - unfold flagReader. intros x. destruct (Changed f); [| done].
    intros [= <-]. apply flagValue_not_nil.
  - unfold envReader. intros x. destruct (w_env w !! _); [| done].
    case_decide; [done |]. by intros [= <-].
  - unfold fileReader. intros x. destruct (fileDoc w flags !! key) as [y|]; [| done].
    destruct (isNil y) eqn:Hy; [done |]. by intros [= <-].
Qed.

End Resolution.

(** ** Decoding into [Config] *)

Lemma filter_ext_in {A} (P Q : A → Prop) `{∀ x, Decision (P x)}
    `{∀ x, Decision (Q x)} (l : list A) :
  (∀ x, x ∈ l → P x ↔ Q x) → filter P l = filter Q l.
Proof.
  induction l as [|a l IH]; intros Hl; [done |].
  rewrite !filter_cons, IH by (intros x Hx; apply Hl; by right).
  assert (P a ↔ Q a) as Ha by (apply Hl; left).
  destruct (decide (P a)), (decide (Q a)); try done; exfalso; tauto.
Qed.

Section Decoding.
Context `{GoLib}.
Import Mapstructure.

Lemma decodeTag_get input tag k :
  decodeTag input tag k ≠ None →
  decodeTag input tag k = Some (typedGet input tag k).
Proof.
  unfold typedGet, getInt, getDuration, getBool, getString, getStrings.
  unfold decodeTag. destruct (input !! tag) as [v|]; [| by destruct k].
  unfold decodeField.
  destruct k; cbn;
    match goal with |- context [?g <$> ?x] => destruct x end; cbn; done.
Qed.

Lemma failing_nil input tag k :
  failing input = [] → (tag, k) ∈ structTags → decodeTag input tag k ≠ None.
Proof.
  unfold failing. intros Hnil Hin Hnone.
  apply fmap_nil_inv in Hnil.
  assert ((tag, k) ∈ filter (λ f, decodeTag input f.1 f.2 = None) structTags) as Hf.
  { by apply list_elem_of_filter. }
  rewrite Hnil in Hf. by apply elem_of_nil in Hf.
Qed.

(** A successful [Decode] fills every tagged field with the decoded
    value of its key (the zero value when the key is absent). *)
Lemma Decode_field input c tag k :
  Decode input = inl c → (tag, k) ∈ structTags →
  fieldByTag c tag = decodeTag input tag k.
Proof.
  unfold Decode. destruct (failing input) as [|t ts] eqn:Hnil; [| done].
  intros [= <-] Hin.
  rewrite (decodeTag_get _ _ _ (failing_nil _ _ _ Hnil Hin)).
  each_member Hin; reflexivity.
Qed.

Lemma Decode_error input tags :
  Decode input = inr tags → tags = failing input ∧ tags ≠ [].
Proof.
  unfold Decode. destruct (failing input) as [|t ts]; [done |].
  by intros [= <-].
Qed.

(** A tagged key whose value cannot be decoded makes [Decode] fail. *)
Lemma Decode_fails input tag k v :
  (tag, k) ∈ structTags → input !! tag = Some v → decodeField k v = None →
  ∃ tags, Decode input = inr tags ∧ tag ∈ tags.
Proof.
  intros Hin Hv Hnone.
  assert (tag ∈ failing input) as Hf.
  { unfold failing. apply list_elem_of_fmap. exists (tag, k). split; [done |].
    apply list_elem_of_filter. split; [| done].
    cbn. unfold decodeTag. by rewrite Hv. }
  unfold Decode. destruct (failing input) as [|t ts] eqn:Hfl.
  - by apply elem_of_nil in Hf.
  - by eexists.
Qed.

(** [Decode] reads its input at the tagged keys only. *)
Lemma Decode_ext input input' :
  (∀ tag, tag ∈ taggedKeys → input !! tag = input' !! tag) →
  Decode input = Decode input'.
Proof.
  intros Hext.
  assert (∀ tag k, tag ∈ taggedKeys →
            decodeTag input tag k = decodeTag input' tag k) as Htag.
  { intros tag k Hin. unfold decodeTag. by rewrite (Hext tag Hin). }
  assert (failing input = failing input') as Hfail.
  { unfold failing. f_equal. apply filter_ext_in. intros [tag k] Hin. cbn.
    rewrite Htag; [done |]. apply list_elem_of_fmap. by exists (tag, k). }
  unfold Decode. rewrite Hfail.
  destruct (failing input'); [| done].
  unfold getInt, getDuration, getBool, getString, getStrings.
  repeat (rewrite Htag by by_eval). done.
Qed.

End Decoding.

(** ** C1: precedence *)

Section Precedence.
Context `{GoLib}.

(** The document of the file reader: what [ReadInConfig] loaded, and
    nothing when it failed. *)
Lemma fileDoc_read w flags :
  fileDoc w flags =
  Viper.config (Viper.ReadInConfig w (envSetup (locate w (cfgFile flags) init).1)).1.
Proof.
  unfold fileDoc. rewrite configured_fst. unfold readConfig.
  by destruct (Viper.ReadInConfig _ _) as [v' [e|]].
Qed.

Lemma init_config : Viper.config init = ∅.
Proof.
  unfold init. generalize bindCalls. intros calls.
  assert (∀ v, Viper.config v = ∅ →
            Viper.config (foldl (λ v b, Viper.BindPFlag b.1
               (Lookup (flagSet localFlagDecls) b.2) v) v calls) = ∅) as Hgen.
  { induction calls as [|b calls IH]; intros v Hv; [done |].
    cbn [foldl]. apply IH. unfold Viper.BindPFlag. by destruct (Lookup _ _). }
  by apply Hgen.
Qed.

Lemma locate_config w c v : Viper.config (locate w c v).1 = Viper.config v.
Proof.
  unfold locate, Viper.SetConfigFile, Viper.SetConfigName, Viper.SetConfigType,
    Viper.AddConfigPath.
  repeat case_match; done.
Qed.

Lemma main_parsed w flags :
  parseFlags (w_args w) declaredFlags = inl flags → main w = initConfig w flags.
Proof. unfold main. by intros ->. Qed.

Lemma initConfig_RunApp w flags c out :
  initConfig w flags = RunApp c out →
  Mapstructure.Decode (settings w flags) = inl c ∧ out = (configured w flags).2.
Proof.
  unfold initConfig, Unmarshal.
  destruct (Mapstructure.Decode (settings w flags)) as [c'|tags]; [| done].
  by intros [= <- <-].
Qed.


End Precedence.


Example sample_main :
  main sampleWorld =
  RunApp {| MemorySize := 5000; UpdateInterval := 3000000000; LogBuffer := 1000;
            TestMode := false; ConfigFile := ""; AIModel := "";
            Files := ["a.log"; "b.log"]; Follow := false; OTLPEnabled := false;
            OTLPGRPCPort := 4317; OTLPHTTPPort := 4318; VmlogsURL := "";
            VmlogsUser := ""; VmlogsPassword := ""; VmlogsQuery := "*";
            Skin := "dracula"; StopWords := ["foo"; "bar"; "baz"]; Format := "";
            DisableVersionCheck := false; ReverseScrollWheel := false |}
         [LogPrintf "Using config file: %s"
                    (ArgString "/home/u/.config/gonzo/config.yml")].
Proof. by vm_compute. Qed.


Lemma env_names_distinct_witness :
  envVarFor (configured sampleWorld sampleFlags).1 "skin" ≠
  envVarFor (configured sampleWorld sampleFlags).1 "stop-words".
Proof.
  apply (env_names_distinct sampleWorld sampleFlags "skin" "stop-words").
  - by_eval.
  - by_eval.
  - discriminate.
Defined.

(** ** C3: where the configuration file is looked for *)

Lemma init_locator :
  Viper.configFile init = "" ∧ Viper.configPaths init = [] ∧
  Viper.configName init = "config" ∧ Viper.configType init = "".
Proof. repeat split; by_eval. Qed.

#[global] Opaque init.

Lemma append_not_empty (a b : string) : b ≠ "" → a +:+ b ≠ "".
Proof. destruct a; [done | discriminate]. Qed.

Section Locator.
Context `{GoLib}.

(** An error of [ReadInConfig] leaves the document as it was. *)
Lemma ReadInConfig_error w v e :
  (Viper.ReadInConfig w v).2 = Some e →
  Viper.config (Viper.ReadInConfig w v).1 = Viper.config v.
Proof.
  unfold Viper.ReadInConfig, Viper.getConfigFile.
  destruct (decide (Viper.configFile v = "")).
  - destruct (Viper.findConfigFile _ _ _ _) as [cf|]; [| done].
    by destruct (w_load w cf _).
  - by destruct (w_load w _ _).
Qed.

Lemma readConfig_error w v e :
  (Viper.ReadInConfig w v).2 = Some e →
  Viper.config (readConfig w v).1 = Viper.config v ∧ (readConfig w v).2 = [].
Proof.
  intros He. pose proof (ReadInConfig_error w v e He) as Hc.
  unfold readConfig. destruct (Viper.ReadInConfig w v) as [v' [e'|]]; [done |].
  discriminate He.
Qed.

(** When [ReadInConfig] succeeds, the file reader's document is the one
    parsed from the file that [getConfigFile] returned. *)
Lemma fileDoc_loaded w flags :
  (Viper.ReadInConfig w (envSetup (locate w (cfgFile flags) init).1)).2 = None →
  ∃ v1 file doc,
    Viper.getConfigFile w (envSetup (locate w (cfgFile flags) init).1)
      = inl (v1, file) ∧
    w_load w file (Viper.configType v1) = LoadOK doc ∧
    fileDoc w flags = doc.
Proof.
  unfold fileDoc. rewrite configured_fst. unfold readConfig.
  generalize (envSetup (locate w (cfgFile flags) init).1). intros v.
  unfold Viper.ReadInConfig.
  destruct (Viper.getConfigFile w v) as [[v1 file] | e]; [| done].
  destruct (w_load w file (Viper.configType v1)) as [| m | m | doc] eqn:Hl;
    try done.
  intros _. by exists v1, file, doc.
Qed.

(** With no document from a file, a bound key is resolved from the
    flag, the environment and the default alone. *)
Lemma settings_without_file w flags :
  fileDoc w flags = ∅ →
  ∀ key name f, (key, name) ∈ bindCalls → flags !! name = Some f →
    settings w flags !! key =
    Some (firstPresent (flagReader f) (envReader w key) None (Viper.flagValue f)).
Proof.
  intros Hdoc key name f Hb Hf.
  rewrite (settings_bound w flags key name f Hb Hf).
  unfold fileReader. by rewrite Hdoc, lookup_empty.
Qed.

(** The three branches of [locate]. *)
Lemma locate_explicit w c v :
  c ≠ "" → locate w c v = (Viper.SetConfigFile c v, []).
Proof. intros Hc. unfold locate. by rewrite decide_True. Qed.

Lemma locate_home w v home :
  w_home w = inl home →
  locate w "" v =
  (Viper.SetConfigName "config"
     (Viper.SetConfigType "yaml"
        (Viper.AddConfigPath (home +:+ "/.config/gonzo") v)), []).
Proof. intros Hh. unfold locate. rewrite decide_False by (by intros ?). by rewrite Hh. Qed.

Lemma locate_nohome w v err :
  w_home w = inr err →
  locate w "" v =
  (v, [LogPrintf "Error finding home directory: %v" (ArgError (ErrOS err))]).
Proof. intros Hh. unfold locate. rewrite decide_False by (by intros ?). by rewrite Hh. Qed.

Lemma SetConfigFile_fields c v :
  c ≠ "" →
  Viper.configFile (Viper.SetConfigFile c v) = c ∧
  Viper.configPaths (Viper.SetConfigFile c v) = Viper.configPaths v ∧
  Viper.config (Viper.SetConfigFile c v) = Viper.config v.
Proof. intros Hc. unfold Viper.SetConfigFile. by rewrite decide_False. Qed.

Lemma home_path_fields v dir :
  dir ≠ "" → Viper.configPaths v = [] →
  ∀ v', v' = Viper.SetConfigName "config"
               (Viper.SetConfigType "yaml" (Viper.AddConfigPath dir v)) →
  Viper.configFile v' = "" ∧ Viper.configPaths v' = [absPathify dir] ∧
  Viper.configType v' = "yaml" ∧ Viper.configName v' = "config".
Proof.
  intros Hd Hp v' ->.
  unfold Viper.AddConfigPath. rewrite decide_False by done.
  rewrite Hp, decide_False by apply not_elem_of_nil.
  unfold Viper.SetConfigType, Viper.SetConfigName.
  by rewrite !decide_False.
Qed.

Lemma getConfigFile_explicit w v :
  Viper.configFile v ≠ "" →
  Viper.getConfigFile w v = inl (v, Viper.configFile v).
Proof. intros Hf. unfold Viper.getConfigFile. by rewrite decide_False. Qed.

Lemma ReadInConfig_nothing_to_find w v :
  Viper.configFile v = "" → Viper.configPaths v = [] →
  (Viper.ReadInConfig w (envSetup v)).2 = Some Viper.ConfigFileNotFoundError.
Proof.
  intros Hf Hp. unfold Viper.ReadInConfig, Viper.getConfigFile.
  change (Viper.configFile (envSetup v)) with (Viper.configFile v).
  change (Viper.configPaths (envSetup v)) with (Viper.configPaths v).
  by rewrite Hf, Hp.
Qed.

(** Without a [--config] path and without a home directory: one line
    is logged, and no document is loaded. *)
Lemma no_home_no_file w flags err :
  cfgFile flags = "" → w_home w = inr err →
  (configured w flags).2 =
    [LogPrintf "Error finding home directory: %v" (ArgError (ErrOS err))] ∧
  fileDoc w flags = ∅.
Proof.
  intros He Hh. destruct init_locator as (Hf & Hp & _).
  assert ((Viper.ReadInConfig w (envSetup init)).2 =
          Some Viper.ConfigFileNotFoundError) as Herr.
  { apply ReadInConfig_nothing_to_find; [exact Hf | exact Hp]. }
  destruct (readConfig_error w (envSetup init) _ Herr) as [Hcfg Hout].
  split.
  - rewrite configured_snd, He, (locate_nohome w init err Hh).
    cbn [fst snd]. by rewrite Hout.
  - unfold fileDoc. rewrite configured_fst, He, (locate_nohome w init err Hh).
    cbn [fst]. rewrite Hcfg. apply init_config.
Qed.

(** C3: a non-empty [--config] path becomes viper's configuration file
    as it is, and [getConfigFile] returns it without searching or
    checking that it exists.  With no path, the home directory plus
    [/.config/gonzo] becomes the only search path, with config type
    [yaml] and config name [config].  When the home directory cannot be
    determined, the error is logged and nothing else happens: viper
    keeps no file and no search path, no document is loaded, and every
    bound key is resolved from flag, environment and default. *)
Theorem locate_config_file (w : World) (flags : gmap string Flag) :
  let v := (locate w (cfgFile flags) init).1 in
  let out := (locate w (cfgFile flags) init).2 in
  (cfgFile flags ≠ "" →
     Viper.configFile v = cfgFile flags ∧ Viper.configPaths v = [] ∧ out = [] ∧
     Viper.getConfigFile w (envSetup v) = inl (envSetup v, cfgFile flags)) ∧
  (cfgFile flags = "" → ∀ home, w_home w = inl home →
     Viper.configFile v = "" ∧
     Viper.configPaths v = [absPathify (home +:+ "/.config/gonzo")] ∧
     Viper.configType v = "yaml" ∧ Viper.configName v = "config" ∧ out = []) ∧
  (cfgFile flags = "" → ∀ err, w_home w = inr err →
     v = init ∧
     (configured w flags).2 =
       [LogPrintf "Error finding home directory: %v" (ArgError (ErrOS err))] ∧
     fileDoc w flags = ∅ ∧
     ∀ key name f, (key, name) ∈ bindCalls → flags !! name = Some f →
       settings w flags !! key =
       Some (firstPresent (flagReader f) (envReader w key) None (Viper.flagValue f))).
Proof.
  cbv zeta. destruct init_locator as (Hf & Hp & Hn & Ht).
  split; [| split].
  - intros Hne. rewrite (locate_explicit w _ init Hne). cbn [fst snd].
    destruct (SetConfigFile_fields (cfgFile flags) init Hne) as (Hcf & Hcp & _).
    split; [done |]. split; [by rewrite Hcp |]. split; [done |].
    assert (Viper.configFile (envSetup (Viper.SetConfigFile (cfgFile flags) init))
            = cfgFile flags) as Hcf' by exact Hcf.
    rewrite getConfigFile_explicit; rewrite Hcf'; done.
  - intros He home Hh. rewrite He, (locate_home w init home Hh). cbn [fst snd].
    assert (home +:+ "/.config/gonzo" ≠ "") as Hdir
      by (apply append_not_empty; discriminate).
    destruct (home_path_fields init _ Hdir Hp _ eq_refl) as (H1 & H2 & H3 & H4).
    repeat split; assumption || reflexivity.
  - intros He err Hh.
    rewrite He, (locate_nohome w init err Hh). cbn [fst snd].
    destruct (no_home_no_file w flags err He Hh) as [Hout Hdoc].
    split; [done |]. split; [done |]. split; [done |].
    by apply settings_without_file.
Qed.

End Locator.

Example brokenFile_parse :
  parseFlags (w_args brokenFileWorld) declaredFlags = inl brokenFileFlags.
Proof.
  assert (is_inl (parseFlags (w_args brokenFileWorld) declaredFlags) = true) as Hok
    by (vm_compute; reflexivity).
  unfold brokenFileFlags.
  by destruct (parseFlags (w_args brokenFileWorld) declaredFlags).
Qed.

Lemma locate_config_file_witness :
  (cfgFile brokenFileFlags = "/etc/gonzo.yml" ∧
   Viper.configFile (locate brokenFileWorld (cfgFile brokenFileFlags) init).1
   = cfgFile brokenFileFlags) ∧
  (cfgFile sampleFlags = "" ∧
   Viper.configPaths (locate sampleWorld (cfgFile sampleFlags) init).1
   = ["/home/u/.config/gonzo"]) ∧
  (cfgFile declaredFlags = "" ∧
   (configured noHomeWorld declaredFlags).2
   = [LogPrintf "Error finding home directory: %v"
                (ArgError (ErrOS "$HOME is not defined"))] ∧
   fileDoc noHomeWorld declaredFlags = ∅).
Proof.
  split; [| split].
  - split; [by_eval |].
    destruct (proj1 (locate_config_file brokenFileWorld brokenFileFlags)
                ltac:(by_eval)) as (Hfile & _).
    exact Hfile.
  - split; [by_eval |].
    destruct (proj1 (proj2 (locate_config_file sampleWorld sampleFlags))
                ltac:(by_eval) "/home/u" eq_refl) as (_ & Hpaths & _).
    exact Hpaths.
  - split; [by_eval |].
    destruct (proj2 (proj2 (locate_config_file noHomeWorld declaredFlags))
                ltac:(by_eval) "$HOME is not defined" eq_refl)
      as (_ & Hout & Hdoc & _).
    by split.
Defined.

(** ** C4: a file that is missing or does not parse *)

Section ReadFailure.
Context `{GoLib}.

(** C4: whatever error [ReadInConfig] returns (no file found, a file
    that cannot be read, a file that does not parse, an unsupported
    type), the file contributes no value, nothing is printed and the
    process does not exit at that step: every bound key is resolved
    from flag, environment and default, and startup ends as
    [Unmarshal] of that document decides. *)
Theorem read_failure_not_fatal (w : World) (flags : gmap string Flag)
    (e : Viper.ReadError) :
  (Viper.ReadInConfig w (envSetup (locate w (cfgFile flags) init).1)).2 = Some e →
  fileDoc w flags = ∅ ∧
  (configured w flags).2 = (locate w (cfgFile flags) init).2 ∧
  (∀ key name f, (key, name) ∈ bindCalls → flags !! name = Some f →
     settings w flags !! key =
     Some (firstPresent (flagReader f) (envReader w key) None (Viper.flagValue f))) ∧
  initConfig w flags =
    match Mapstructure.Decode (settings w flags) with
    | inl c => RunApp c (locate w (cfgFile flags) init).2
    | inr tags =>
        Exited 1 ((locate w (cfgFile flags) init).2 ++
                  [LogPrintf "Unable to decode config: %v" (ArgError (ErrDecode tags))])
    end.
Proof.
  intros Herr.
  destruct (readConfig_error w _ e Herr) as [Hcfg Hout].
  assert (fileDoc w flags = ∅) as Hdoc.
  { unfold fileDoc. rewrite configured_fst, Hcfg.
    change (Viper.config (envSetup ?v)) with (Viper.config v).
    rewrite locate_config. apply init_config. }
  assert ((configured w flags).2 = (locate w (cfgFile flags) init).2) as Hlog.
  { rewrite configured_snd, Hout. apply app_nil_r. }
  split; [done |]. split; [done |].
  split; [by apply settings_without_file |].
  unfold initConfig, Unmarshal. rewrite Hlog.
  by destruct (Mapstructure.Decode (settings w flags)).
Qed.

(** The errors of a file that does not parse, that cannot be read, and
    that is not found. *)
Lemma ReadInConfig_parse_error w v m :
  Viper.configFile v ≠ "" →
  w_load w (Viper.configFile v) (Viper.configType v) = LoadParseError m →
  (Viper.ReadInConfig w v).2 = Some (Viper.ConfigParseError m).
Proof.
  intros Hf Hl. unfold Viper.ReadInConfig.
  by rewrite (getConfigFile_explicit w v Hf), Hl.
Qed.

Lemma ReadInConfig_missing w v m :
  Viper.configFile v ≠ "" →
  w_load w (Viper.configFile v) (Viper.configType v) = LoadReadError m →
  (Viper.ReadInConfig w v).2 = Some (Viper.FileReadError m).
Proof.
  intros Hf Hl. unfold Viper.ReadInConfig.
  by rewrite (getConfigFile_explicit w v Hf), Hl.
Qed.

Lemma ReadInConfig_not_found w v :
  Viper.configFile v = "" →
  Viper.findConfigFile w (Viper.configName v) (Viper.configType v)
                       (Viper.configPaths v) = None →
  (Viper.ReadInConfig w v).2 = Some Viper.ConfigFileNotFoundError.
Proof.
  intros Hf Hl. unfold Viper.ReadInConfig, Viper.getConfigFile.
  by rewrite decide_True, Hl.
Qed.

End ReadFailure.

Lemma read_failure_witness :
  (Viper.ReadInConfig brokenFileWorld
     (envSetup (locate brokenFileWorld (cfgFile brokenFileFlags) init).1)).2
  = Some (Viper.ConfigParseError "yaml: did not find expected key") ∧
  fileDoc brokenFileWorld brokenFileFlags = ∅ ∧
  settings brokenFileWorld brokenFileFlags !! "skin" = Some (VStr "monokai").
Proof.
  assert ((Viper.ReadInConfig brokenFileWorld
             (envSetup (locate brokenFileWorld (cfgFile brokenFileFlags) init).1)).2
          = Some (Viper.ConfigParseError "yaml: did not find expected key")) as Herr
    by (vm_compute; reflexivity).
  split; [exact Herr |].
  destruct (read_failure_not_fatal brokenFileWorld brokenFileFlags _ Herr)
    as (Hdoc & _ & Hres & _).
  split; [exact Hdoc |].
  rewrite (Hres "skin" "skin" (newFlag "skin" "s" TString "default"));
    [vm_compute; reflexivity | by_eval | vm_compute; reflexivity].
Defined.

(** ** C5: a value that cannot be decoded *)

Section DecodeFailure.
Context `{GoLib}.

(** C5: when the merged document holds, for a key of [Config], a value
    that does not convert to the field's type, [Unmarshal] fails and
    [initConfig] prints [Unable to decode config] and exits with status
    1: the application body is not entered.  An error of
    [rootCmd.Execute] itself (cobra rejecting the command line) is
    printed to standard error by [main], which also exits with status
    1. *)
Theorem decode_failure_aborts (w : World) :
  (∀ flags tag k v,
     parseFlags (w_args w) declaredFlags = inl flags →
     (tag, k) ∈ structTags →
     settings w flags !! tag = Some v →
     Mapstructure.decodeField k v = None →
     (∃ tags, tag ∈ tags ∧
        main w = Exited 1 ((configured w flags).2 ++
                   [LogPrintf "Unable to decode config: %v"
                              (ArgError (ErrDecode tags))])) ∧
     ∀ c out, main w ≠ RunApp c out) ∧
  (∀ err, parseFlags (w_args w) declaredFlags = inr err →
     main w = Exited 1 [StderrPrintf "Error: %v\n" (ArgError err)]).
Proof.
  split.
  - intros flags tag k v Hparse Hin Hv Hnone.
    destruct (Decode_fails _ tag k v Hin Hv Hnone) as (tags & Hdec & Htag).
    assert (main w = Exited 1 ((configured w flags).2 ++
              [LogPrintf "Unable to decode config: %v" (ArgError (ErrDecode tags))]))
      as Hmain.
    { rewrite (main_parsed _ _ Hparse). unfold initConfig, Unmarshal.
      by rewrite Hdec. }
    split; [by exists tags |].
    intros c out. by rewrite Hmain.
  - intros err Hparse. unfold main. by rewrite Hparse.
Qed.

End DecodeFailure.

Lemma decode_failure_witness :
  settings noHomeWorld declaredFlags !! "otlp-grpc-port" = Some (VStr "notanumber") ∧
  Mapstructure.decodeField KInt (VStr "notanumber") = None ∧
  (∃ tags, "otlp-grpc-port" ∈ tags ∧
     main noHomeWorld =
     Exited 1 ((configured noHomeWorld declaredFlags).2 ++
               [LogPrintf "Unable to decode config: %v" (ArgError (ErrDecode tags))])).
Proof.
  assert (settings noHomeWorld declaredFlags !! "otlp-grpc-port"
          = Some (VStr "notanumber")) as Hv by (vm_compute; reflexivity).
  assert (Mapstructure.decodeField KInt (VStr "notanumber") = None) as Hnone
    by (vm_compute; reflexivity).
  split; [exact Hv |]. split; [exact Hnone |].
  apply (proj1 (decode_failure_aborts noHomeWorld)
           declaredFlags "otlp-grpc-port" KInt (VStr "notanumber")).
  - reflexivity.
  - by_eval.
  - exact Hv.
  - exact Hnone.
Defined.

Example decode_failure_main :
  main noHomeWorld =
  Exited 1 [LogPrintf "Error finding home directory: %v"
                      (ArgError (ErrOS "$HOME is not defined"));
            LogPrintf "Unable to decode config: %v"
                      (ArgError (ErrDecode ["otlp-grpc-port"]))].
Proof. vm_compute. reflexivity. Qed.

(** A flag argument that pflag rejects never reaches [initConfig]
    (sample instance). *)
Example malformed_flag :
  main (mkWorld [("otlp-grpc-port", "notanumber")] ∅ (inl "/home/u")
                (λ dir name ty, None) (λ file ty, LoadReadError "no file"))
  = Exited 1 [StderrPrintf "Error: %v\n"
                (ArgError (ErrInvalidArgument "otlp-grpc-port" "notanumber"))].
Proof. vm_compute. reflexivity. Qed.

(** ** C6: one identifier per setting *)

(** The key [files] is bound to the flag named [file]: no flag is named
    [files]. *)
Lemma files_key_flag_named_file :
  "files" ∈ boundKeys ∧ Viper.pflags init !! "files" = Some "file" ∧
  ("files" ∉ flagNames) ∧ (¬ sameIdentifier "files").
Proof.
  assert (Viper.pflags init !! "files" = Some "file") as Hf.
  { apply pflags_init_lookup. by_eval. }
  split; [by_eval |]. split; [exact Hf |]. split; [by_eval |].
  intros (Hsame & _). rewrite Hf in Hsame. discriminate Hsame.
Qed.

(** C6 (amended): every key bound to viper is a tag of [Config] and is
    bound to a declared flag; the flag's name is the key itself, except
    that the key [files] is bound to the flag [file].  The environment
    variable and the file entry that [find] consults for the key both
    derive from the key (not from the flag's name); and every tag of
    [Config] other than [config] is bound. *)
Theorem flag_name_of_key `{GoLib} (key name : string) :
  Viper.pflags init !! key = Some name →
  name ∈ flagNames ∧ key ∈ taggedKeys ∧
  name = (if decide (key = "files") then "file" else key) ∧
  (∀ w flags f, flags !! name = Some f →
     Viper.find w flags (configured w flags).1 key true =
     firstPresent (flagReader f) (envReader w key) (fileReader w flags key)
                  (Viper.flagValue f)) ∧
  (∀ tag, tag ∈ taggedKeys → tag ≠ "config" → is_Some (Viper.pflags init !! tag)).
Proof.
  intros Hb. apply pflags_init_lookup in Hb.
  split; [| split; [| split; [| split]]].
  - each_member Hb; by_eval.
  - each_member Hb; by_eval.
  - each_member Hb; reflexivity.
  - intros w flags f Hf. by apply (find_bound w flags key name f).
  - intros tag Hin Hne. unfold taggedKeys in Hin.
    apply list_elem_of_fmap in Hin as ([t k] & -> & Hin). cbn in *.
    each_member Hin; try done; eexists; apply pflags_init_lookup; by_eval.
Qed.

Lemma flag_name_of_key_witness :
  "file" ∈ flagNames ∧ "files" ∈ taggedKeys ∧
  "file" = (if decide ("files" = "files") then "file" else "files") ∧
  (∀ w flags f, flags !! "file" = Some f →
     Viper.find w flags (configured w flags).1 "files" true =
     firstPresent (flagReader f) (envReader w "files") (fileReader w flags "files")
                  (Viper.flagValue f)) ∧
  (∀ tag, tag ∈ taggedKeys → tag ≠ "config" → is_Some (Viper.pflags init !! tag)).
Proof.
  apply (flag_name_of_key "files" "file").
  apply pflags_init_lookup. by_eval.
Defined.

(** ** C7: setting a key through the environment *)


Section EnvironmentSetsKey.
Context `{GoLib}.

Lemma findConfigFile_withEnv env w name ty paths :
  Viper.findConfigFile (withEnv env w) name ty paths =
  Viper.findConfigFile w name ty paths.
Proof. induction paths as [|cp rest IH]; cbn; [done | by rewrite IH]. Qed.

(** The environment plays no part in choosing and reading the file. *)
Lemma configured_withEnv env w flags :
  configured (withEnv env w) flags = configured w flags.
Proof.
  unfold configured, locate, readConfig, Viper.ReadInConfig, Viper.getConfigFile.
  cbn [w_home w_load withEnv].
  destruct (decide (cfgFile flags ≠ "")); cbn [fst snd].
  - by rewrite findConfigFile_withEnv.
  - destruct (w_home w); by rewrite findConfigFile_withEnv.
Qed.


End EnvironmentSetsKey.


(** ** C9: string lists *)





Section StringLists.
Context `{GoLib}.
Import Mapstructure.

(** A sequence of strings (from a flag, from a YAML list) is kept as
    it is. *)
Lemma decodeStrings_sequence (l : list string) :
  decodeStrings (VList (VStr <$> l)) = Some l.
Proof.
  cbn. induction l as [|s l IH]; [done |].
  cbn. cbn in IH. by rewrite IH.
Qed.


End StringLists.


(** The same list given as a flag, under the sample instance (CSV
    without quoting); a repeated word is kept. *)
Example stop_words_flag :
  ∃ c out,
    main (mkWorld [("stop-words", "foo,bar,foo")] ∅ (inr "no home")
                  (λ dir name ty, None) (λ file ty, LoadReadError "no file"))
    = RunApp c out ∧ StopWords c = ["foo"; "bar"; "foo"].
Proof. eexists _, _. split; vm_compute; reflexivity. Qed.

(** ** C10: keys of the file that [Config] does not declare *)

Section UndeclaredKeys.
Context `{GoLib}.

(** [find] reads the world's environment and, of viper, the bindings,
    the environment settings and the document at the key. *)
Lemma find_agree w w' flags v v' key :
  w_env w' = w_env w →
  Viper.pflags v' = Viper.pflags v →
  Viper.envPrefix v' = Viper.envPrefix v →
  Viper.automaticEnvApplied v' = Viper.automaticEnvApplied v →
  Viper.envKeyReplacer v' = Viper.envKeyReplacer v →
  Viper.config v' !! key = Viper.config v !! key →
  Viper.find w' flags v' key true = Viper.find w flags v key true.
Proof.
  intros He Hp Hx Ha Hr Hc.
  unfold Viper.find, Viper.getEnv, Viper.envName, Viper.mergeWithEnvPrefix.
  by rewrite He, Hp, Hx, Ha, Hr, Hc.
Qed.

Lemma AllSettings_agree w w' flags v v' key :
  w_env w' = w_env w →
  Viper.pflags v' = Viper.pflags v →
  Viper.envPrefix v' = Viper.envPrefix v →
  Viper.automaticEnvApplied v' = Viper.automaticEnvApplied v →
  Viper.envKeyReplacer v' = Viper.envKeyReplacer v →
  ToLower key = key →
  Viper.config v' !! key = Viper.config v !! key →
  Viper.AllSettings w' flags v' !! key = Viper.AllSettings w flags v !! key.
Proof.
  intros He Hp Hx Ha Hr Hk Hc.
  unfold Viper.AllSettings, Viper.AllKeys, Viper.Get.
  rewrite !map_lookup_imap, !lookup_union, !lookup_fmap, Hp, Hc, Hk.
  by rewrite (find_agree w w' flags v v' key He Hp Hx Ha Hr Hc).
Qed.

Lemma findConfigFile_withFileKey k val w name ty paths :
  Viper.findConfigFile (withFileKey k val w) name ty paths =
  Viper.findConfigFile w name ty paths.
Proof. induction paths as [|cp rest IH]; cbn; [done | by rewrite IH]. Qed.

(** Reading the extended file: the same outcome and the same file,
    with the entry added to the document when one was loaded. *)
Lemma ReadInConfig_withFileKey k val w v :
  let r := Viper.ReadInConfig w v in
  let r' := Viper.ReadInConfig (withFileKey k val w) v in
  r'.2 = r.2 ∧
  Viper.configFile r'.1 = Viper.configFile r.1 ∧
  Viper.pflags r'.1 = Viper.pflags r.1 ∧
  Viper.envPrefix r'.1 = Viper.envPrefix r.1 ∧
  Viper.automaticEnvApplied r'.1 = Viper.automaticEnvApplied r.1 ∧
  Viper.envKeyReplacer r'.1 = Viper.envKeyReplacer r.1 ∧
  ∀ key, key ≠ k → Viper.config r'.1 !! key = Viper.config r.1 !! key.
Proof.
  cbv zeta. unfold Viper.ReadInConfig, Viper.getConfigFile.
  rewrite findConfigFile_withFileKey. cbn [w_load withFileKey].
  destruct (decide (Viper.configFile v = "")).
  - destruct (Viper.findConfigFile _ _ _ _) as [cf|]; [| done].
    destruct (w_load w cf _); cbn; repeat split; try done.
    intros key Hne. by rewrite lookup_insert_ne.
  - destruct (w_load w _ _); cbn; repeat split; try done.
    intros key Hne. by rewrite lookup_insert_ne.
Qed.

Lemma configured_withFileKey k val w flags :
  let v := (configured w flags).1 in
  let v' := (configured (withFileKey k val w) flags).1 in
  (configured (withFileKey k val w) flags).2 = (configured w flags).2 ∧
  Viper.pflags v' = Viper.pflags v ∧
  Viper.envPrefix v' = Viper.envPrefix v ∧
  Viper.automaticEnvApplied v' = Viper.automaticEnvApplied v ∧
  Viper.envKeyReplacer v' = Viper.envKeyReplacer v ∧
  ∀ key, key ≠ k → Viper.config v' !! key = Viper.config v !! key.
Proof.
  cbv zeta. rewrite !configured_fst, !configured_snd.
  assert (∀ c, locate (withFileKey k val w) c init = locate w c init) as Hl
    by reflexivity.
  rewrite Hl. generalize (envSetup (locate w (cfgFile flags) init).1). intros v.
  destruct (ReadInConfig_withFileKey k val w v)
    as (He & Hf & Hp & Hx & Ha & Hr & Hc).
  unfold readConfig, Viper.ConfigFileUsed.
  destruct (Viper.ReadInConfig w v) as [v1 e1].
  destruct (Viper.ReadInConfig (withFileKey k val w) v) as [v2 e2].
  cbn [fst snd] in *. subst e2. rewrite Hf.
  destruct e1; cbn [fst snd]; by repeat split.
Qed.


End UndeclaredKeys.


(** * Further properties of startup *)

(** ** What the environment can change *)

Lemma taggedKeys_lower (tag : string) : tag ∈ taggedKeys → ToLower tag = tag.
Proof.
  intros Hin. apply ToLower_key, declaredKeys_bytes. unfold declaredKeys.
  apply elem_of_app. right. apply elem_of_app. by left.
Qed.

Lemma taggedKeys_declared (tag : string) : tag ∈ taggedKeys → tag ∈ declaredKeys.
Proof.
  intros Hin. unfold declaredKeys. apply elem_of_app. right.
  apply elem_of_app. by left.
Qed.

Lemma boundKeys_tagged (key name : string) :
  (key, name) ∈ bindCalls → key ∈ taggedKeys.
Proof. intros Hb. each_member Hb; by_eval. Qed.

Section Environment.
Context `{GoLib}.

(** [find] reads the environment at the key's variable only. *)
Lemma find_env_agree w w' flags v key fd :
  w_env w' !! envVarFor v key = w_env w !! envVarFor v key →
  Viper.find w' flags v key fd = Viper.find w flags v key fd.
Proof.
  intros He. unfold Viper.find, Viper.getEnv.
  fold (envVarFor v key). by rewrite He.
Qed.

Lemma settings_env_agree w env flags tag :
  ToLower tag = tag →
  env !! specEnvName tag = w_env w !! specEnvName tag →
  settings (withEnv env w) flags !! tag = settings w flags !! tag.
Proof.
  intros Hk He. unfold settings, Viper.AllSettings, Viper.Get.
  rewrite configured_withEnv, !map_lookup_imap, Hk.
  rewrite (find_env_agree w (withEnv env w) flags _ tag true); [done |].
  by rewrite envVarFor_configured.
Qed.

Lemma initConfig_withEnv w env flags :
  (∀ tag, tag ∈ taggedKeys →
     settings (withEnv env w) flags !! tag = settings w flags !! tag) →
  initConfig (withEnv env w) flags = initConfig w flags.
Proof.
  intros Hs. unfold initConfig, Unmarshal.
  by rewrite (Decode_ext _ _ Hs), configured_withEnv.
Qed.


(** X2: setting the variable of one declared key changes the resolved
    value of no other declared key. *)
Theorem variable_sets_one_key (w : World) (flags : gmap string Flag)
    (key other val : string) :
  key ∈ declaredKeys → other ∈ declaredKeys → other ≠ key →
  settings (withEnv (<[specEnvName key := val]> (w_env w)) w) flags !! other
  = settings w flags !! other.
Proof.
  intros Hk Ho Hne. apply settings_env_agree.
  - by apply ToLower_key, declaredKeys_bytes.
  - apply lookup_insert_ne. intros Heq. apply Hne. symmetry.
    apply specEnvName_inj; auto using declaredKeys_bytes.
Qed.

(** A flag given on the command line is changed after the parse. *)
Lemma given_flag_changed w flags key name :
  parseFlags (w_args w) declaredFlags = inl flags →
  (key, name) ∈ bindCalls → name ∈ (w_args w).*1 →
  ∃ f, flags !! name = Some f ∧ Changed f = true.
Proof.
  intros Hp Hb Hin.
  destruct (bound_flag_declared key name Hb) as (d & _ & Hd & _).
  destruct (parseFlags_spec _ _ _ Hp name d Hd) as (f & Hf & _ & _ & Hch & _).
  exists f. auto.
Qed.

(** X3: when the flag of a bound key is given, the key's
    variable plays no part: startup ends the same way whatever the
    variable holds, a text that would not decode included. *)
Theorem flag_hides_variable (w : World) (key name val : string) :
  (key, name) ∈ bindCalls → name ∈ (w_args w).*1 →
  main (withEnv (<[specEnvName key := val]> (w_env w)) w) = main w.
Proof.
  intros Hb Hin. unfold main. cbn [w_args withEnv].
  destruct (parseFlags (w_args w) declaredFlags) as [flags | err] eqn:Hp; [| done].
  destruct (given_flag_changed w flags key name Hp Hb Hin) as (f & Hf & Hch).
  apply initConfig_withEnv. intros tag Htag.
  destruct (decide (tag = key)) as [-> | Hne].
  - rewrite !(settings_bound _ flags key name f Hb Hf).
    unfold flagReader. by rewrite Hch.
  - apply settings_env_agree; [by apply taggedKeys_lower |].
    apply lookup_insert_ne. intros Heq. apply Hne. symmetry.
    apply specEnvName_inj; [| | exact Heq].
    + eapply declaredKeys_bytes, taggedKeys_declared, boundKeys_tagged, Hb.
    + by apply declaredKeys_bytes, taggedKeys_declared.
Qed.

End Environment.

(** ** What an entry of the file can change *)

Section FileEntries.
Context `{GoLib}.

(** Adding an entry under [k] can change the outcome through the merged
    value of [k] only. *)
Lemma initConfig_withFileKey w k val flags :
  (k ∈ taggedKeys →
     settings (withFileKey k val w) flags !! k = settings w flags !! k) →
  initConfig (withFileKey k val w) flags = initConfig w flags.
Proof.
  intros Hk.
  destruct (configured_withFileKey k val w flags)
    as (Hout & Hp & Hx & Ha & Hr & Hc).
  assert (Mapstructure.Decode (settings (withFileKey k val w) flags) =
          Mapstructure.Decode (settings w flags)) as Hdec.
  { apply Decode_ext. intros tag Htag.
    destruct (decide (tag = k)) as [-> | Hne]; [by apply Hk |].
    unfold settings. apply AllSettings_agree; try done.
    - by apply taggedKeys_lower.
    - by apply Hc. }
  unfold initConfig, Unmarshal. by rewrite Hdec, Hout.
Qed.


(** X5: when the flag of a bound key is not given and the key's
    variable is set to a non-empty text, the key's entry in the
    configuration file plays no part either. *)
Theorem variable_hides_file_entry (w : World) (key name text : string) (val : Any) :
  (key, name) ∈ bindCalls → name ∉ (w_args w).*1 →
  w_env w !! specEnvName key = Some text → text ≠ "" →
  main (withFileKey key val w) = main w.
Proof.
  intros Hb Hin Henv Hne. unfold main. cbn [w_args withFileKey].
  destruct (parseFlags (w_args w) declaredFlags) as [flags | err] eqn:Hp; [| done].
  destruct (bound_flag_declared key name Hb) as (d & _ & Hd & _ & Hdch & _).
  destruct (parseFlags_spec _ _ _ Hp name d Hd) as (f & Hf & _ & _ & _ & Hsame).
  rewrite (Hsame Hin) in Hf.
  apply initConfig_withFileKey. intros _.
  rewrite !(settings_bound _ flags key name d Hb Hf).
  unfold flagReader, envReader. cbn [w_env withFileKey].
  by rewrite Hdch, Henv, decide_False.
Qed.

End FileEntries.


Lemma variable_sets_one_key_witness :
  settings (withEnv (<[specEnvName "skin" := "monokai"]> (w_env sampleWorld)) sampleWorld)
           sampleFlags !! "stop-words"
  = settings sampleWorld sampleFlags !! "stop-words".
Proof.
  apply (variable_sets_one_key sampleWorld sampleFlags "skin" "stop-words" "monokai").
  - by_eval.
  - by_eval.
  - discriminate.
Defined.

Lemma flag_hides_variable_witness :
  main (withEnv (<[specEnvName "otlp-grpc-port" := "notanumber"]>
                   (w_env flagOverEnvWorld)) flagOverEnvWorld)
  = main flagOverEnvWorld.
Proof.
  apply (flag_hides_variable flagOverEnvWorld "otlp-grpc-port" "otlp-grpc-port"
           "notanumber").
  - by_eval.
  - by_eval.
Defined.


Lemma variable_hides_file_entry_witness :
  main (withFileKey "stop-words" (VList [VList []]) sampleWorld) = main sampleWorld.
Proof.
  apply (variable_hides_file_entry sampleWorld "stop-words" "stop-words" "foo,bar,baz").
  - by_eval.
  - by_eval.
  - vm_compute; reflexivity.
  - discriminate.
Defined.

(** ** Why startup fails, and what it reports *)

Lemma structTags_NoDup : NoDup structTags.*1.
Proof. by_eval. Qed.

Lemma structTags_kind (tag : string) (k k' : Kind) :
  (tag, k) ∈ structTags → (tag, k') ∈ structTags → k = k'.
Proof.
  intros H1 H2.
  apply (elem_of_list_to_map (M := gmap string) _ _ _ structTags_NoDup) in H1, H2.
  congruence.
Qed.

Section Failure.
Context `{GoLib}.

(** The value viper reads from a flag decodes into a field of the
    flag's kind; a duration is left to [time.ParseDuration]. *)
Lemma flagValue_decodes (f : Flag) :
  VType f ≠ TDuration →
  Mapstructure.decodeField (kindOfType (VType f)) (Viper.flagValue f) ≠ None.
Proof.
  intros Ht. unfold Viper.flagValue.
  destruct (VType f); cbn [kindOfType Mapstructure.decodeField]; try done.
  by rewrite decodeStrings_sequence.
Qed.

(** The tags [Decode] fails on are tags whose merged value does not
    decode. *)
Lemma failing_spec input tag :
  tag ∈ Mapstructure.failing input →
  ∃ k v, (tag, k) ∈ structTags ∧ input !! tag = Some v ∧
         Mapstructure.decodeField k v = None.
Proof.
  unfold Mapstructure.failing. intros Hin.
  apply list_elem_of_fmap in Hin as ([t k] & -> & Hin).
  apply list_elem_of_filter in Hin as [Hnone Hin]. cbn in *.
  unfold Mapstructure.decodeTag in Hnone.
  destruct (input !! t) as [v|] eqn:Hv; [| by destruct k].
  by exists k, v.
Qed.

(** X6: a decode failure at a bound key that is not a duration never
    comes from the command line: the key's flag was not given, and the
    value that failed is the one of the key's variable or of the file. *)
Theorem decode_error_not_from_flag (w : World) (flags : gmap string Flag)
    (tags : list string) (key name : string) (f : Flag) :
  parseFlags (w_args w) declaredFlags = inl flags →
  Unmarshal w flags = inr (ErrDecode tags) → key ∈ tags →
  (key, name) ∈ bindCalls → flags !! name = Some f → VType f ≠ TDuration →
  Changed f = false ∧
  (is_Some (envReader w key) ∨ is_Some (fileReader w flags key)).
Proof.
  intros Hp Hu Hin Hb Hf Ht.
  unfold Unmarshal in Hu.
  destruct (Mapstructure.Decode (settings w flags)) as [c | tags'] eqn:Hdec; [done |].
  injection Hu as ->. apply Decode_error in Hdec as [-> _].
  destruct (failing_spec _ _ Hin) as (k & v & Hk & Hv & Hnone).
  destruct (bound_flag_declared key name Hb) as (d & _ & Hd & _ & _ & _ & Hkd).
  destruct (parseFlags_spec _ _ _ Hp name d Hd) as (f' & Hf' & Hty & _).
  assert (f' = f) as -> by congruence.
  assert (k = kindOfType (VType f)) as ->.
  { rewrite Hty. by apply (structTags_kind key). }
  rewrite (settings_bound w flags key name f Hb Hf) in Hv. injection Hv as <-.
  pose proof (flagValue_decodes f Ht) as Hok.
  unfold flagReader in Hnone.
  destruct (Changed f); [done |]. split; [done |].
  destruct (envReader w key); [left; by eexists |].
  destruct (fileReader w flags key); [right; by eexists | done].
Qed.


(** A key that is neither bound nor in the file is not in the merged
    document. *)
Lemma settings_unbound w flags key :
  Viper.pflags init !! key = None → fileDoc w flags !! key = None →
  settings w flags !! key = None.
Proof.
  unfold fileDoc. intros Hp Hd.
  unfold settings, Viper.AllSettings, Viper.AllKeys.
  by rewrite map_lookup_imap, lookup_union, !lookup_fmap, configured_pflags, Hp, Hd.
Qed.

(** X8: the field [ConfigFile] never takes the value of [--config]:
    unless the configuration file itself has an entry [config], the
    field is empty when the application body is entered, whatever the
    command line and the environment are. *)
Theorem config_field_not_from_flag (w : World) (flags : gmap string Flag)
    (c : Config) (out : list Line) :
  initConfig w flags = RunApp c out →
  fileDoc w flags !! "config" = None →
  ConfigFile c = "".
Proof.
  intros Hrun Hdoc. apply initConfig_RunApp in Hrun as [Hdec _].
  assert (Viper.pflags init !! "config" = None) as Hp by by_eval.
  pose proof (Decode_field _ _ "config" KString Hdec ltac:(by_eval)) as Hfield.
  unfold Mapstructure.decodeTag in Hfield.
  rewrite (settings_unbound w flags "config" Hp Hdoc) in Hfield.
  by injection Hfield.
Qed.

End Failure.

Lemma decode_error_not_from_flag_witness :
  Unmarshal noHomeWorld declaredFlags = inr (ErrDecode ["otlp-grpc-port"]) ∧
  Changed (newFlag "otlp-grpc-port" "" TInt "4317") = false ∧
  (is_Some (envReader noHomeWorld "otlp-grpc-port") ∨
   is_Some (fileReader noHomeWorld declaredFlags "otlp-grpc-port")).
Proof.
  assert (Unmarshal noHomeWorld declaredFlags = inr (ErrDecode ["otlp-grpc-port"]))
    as Hu by (vm_compute; reflexivity).
  split; [exact Hu |].
  apply (decode_error_not_from_flag noHomeWorld declaredFlags ["otlp-grpc-port"]
           "otlp-grpc-port" "otlp-grpc-port").
  - reflexivity.
  - exact Hu.
  - by_eval.
  - by_eval.
  - vm_compute; reflexivity.
  - discriminate.
Defined.


Lemma config_field_not_from_flag_witness :
  cfgFile flagConfigFlags = "/etc/gonzo.yml" ∧
  ∃ c out, initConfig flagConfigWorld flagConfigFlags = RunApp c out ∧
           ConfigFile c = "".
Proof.
  split; [by_eval |].
  assert (is_Some (match initConfig flagConfigWorld flagConfigFlags with
                   | RunApp c out => Some (c, out)
                   | Exited _ _ => None
                   end)) as [[c out] Hrun].
  { vm_compute. by eexists. }
  destruct (initConfig flagConfigWorld flagConfigFlags) as [|c' out'] eqn:Hinit;
    [done |].
  injection Hrun as -> ->.
  exists c, out. split; [reflexivity |].
  apply (config_field_not_from_flag flagConfigWorld flagConfigFlags c out Hinit).
  vm_compute; reflexivity.
Defined.

(** After any error of [ReadInConfig]: no document, and nothing logged
    by the read step. *)
Lemma read_error_empty `{GoLib} w flags e :
  (Viper.ReadInConfig w (envSetup (locate w (cfgFile flags) init).1)).2 = Some e →
  fileDoc w flags = ∅ ∧
  (configured w flags).2 = (locate w (cfgFile flags) init).2.
Proof.
  intros Herr. destruct (readConfig_error w _ e Herr) as [Hcfg Hout].
  split.
  - unfold fileDoc. rewrite configured_fst, Hcfg.
    change (Viper.config (envSetup ?v)) with (Viper.config v).
    rewrite locate_config. apply init_config.
  - rewrite configured_snd, Hout. apply app_nil_r.
Qed.

(** ** The file that is read, and what is logged about it *)

Section FileChoice.
Context `{GoLib}.

(** A successful [ReadInConfig] loaded the document of the file that
    [ConfigFileUsed] then names. *)
Lemma ReadInConfig_ok w v v' :
  Viper.ReadInConfig w v = (v', None) →
  ∃ doc, w_load w (Viper.configFile v') (Viper.configType v') = LoadOK doc ∧
         Viper.config v' = doc ∧
         (Viper.configFile v ≠ "" → Viper.configFile v' = Viper.configFile v).
Proof.
  unfold Viper.ReadInConfig, Viper.getConfigFile.
  destruct (decide (Viper.configFile v = "")) as [He | Hne].
  - destruct (Viper.findConfigFile _ _ _ _) as [cf|]; [| done].
    cbn [Viper.configType Viper.withFile].
    destruct (w_load w cf (Viper.configType v)) as [| m | m | doc] eqn:Hl; try done.
    intros [= <-]. exists doc. cbn. by rewrite Hl.
  - destruct (w_load w (Viper.configFile v) (Viper.configType v))
      as [| m | m | doc] eqn:Hl; try done.
    intros [= <-]. exists doc. cbn. by rewrite Hl.
Qed.

(** X9: [initConfig] logs at most one line before [Unmarshal], and the
    line tells what happened to the file: nothing is logged and no
    document is used; or the home directory was not found (no [--config]
    given) and no document is used; or [Using config file] names a file,
    and the document used is the one loaded from that very file, which is
    the [--config] path when one was given. *)
Theorem config_file_announced (w : World) (flags : gmap string Flag) :
  ((configured w flags).2 = [] ∧ fileDoc w flags = ∅) ∨
  (∃ err, cfgFile flags = "" ∧ w_home w = inr err ∧
          (configured w flags).2 =
            [LogPrintf "Error finding home directory: %v" (ArgError (ErrOS err))] ∧
          fileDoc w flags = ∅) ∨
  (∃ file ty doc,
     (configured w flags).2 = [LogPrintf "Using config file: %s" (ArgString file)] ∧
     w_load w file ty = LoadOK doc ∧ fileDoc w flags = doc ∧
     (cfgFile flags ≠ "" → file = cfgFile flags)).
Proof.
  destruct (decide (cfgFile flags = "")) as [He | Hne].
  - destruct (w_home w) as [home | err] eqn:Hh.
    + (* a home directory *)
      assert ((locate w (cfgFile flags) init).2 = []) as Hout.
      { by rewrite He, (locate_home w init home Hh). }
      destruct (Viper.ReadInConfig w (envSetup (locate w (cfgFile flags) init).1))
        as [v' [e|]] eqn:Hr.
      * left. destruct (read_error_empty w flags e) as [Hd Ho]; [by rewrite Hr |].
        split; [by rewrite Ho, Hout | done].
      * right. right. destruct (ReadInConfig_ok _ _ _ Hr) as (doc & Hl & Hc & _).
        exists (Viper.configFile v'), (Viper.configType v'), doc.
        split; [| split; [done | split; [| done]]].
        -- rewrite configured_snd, Hout. unfold readConfig. by rewrite Hr.
        -- unfold fileDoc. rewrite configured_fst. unfold readConfig. by rewrite Hr.
    + right. left. exists err.
      destruct (no_home_no_file w flags err He Hh) as [Ho Hd]. done.
  - assert ((locate w (cfgFile flags) init).2 = []) as Hout.
    { by rewrite (locate_explicit w _ init Hne). }
    destruct (Viper.ReadInConfig w (envSetup (locate w (cfgFile flags) init).1))
      as [v' [e|]] eqn:Hr.
    + left. destruct (read_error_empty w flags e) as [Hd Ho]; [by rewrite Hr |].
      split; [by rewrite Ho, Hout | done].
    + right. right. destruct (ReadInConfig_ok _ _ _ Hr) as (doc & Hl & Hc & Hsame).
      exists (Viper.configFile v'), (Viper.configType v'), doc.
      split; [| split; [done | split]].
      * rewrite configured_snd, Hout. unfold readConfig. by rewrite Hr.
      * unfold fileDoc. rewrite configured_fst. unfold readConfig. by rewrite Hr.
      * intros _. rewrite Hsame.
        -- rewrite (locate_explicit w _ init Hne). cbn [fst].
           by destruct (SetConfigFile_fields (cfgFile flags) init Hne) as (Hcf & _).
        -- rewrite (locate_explicit w _ init Hne). cbn [fst].
           change (Viper.configFile (envSetup ?v)) with (Viper.configFile v).
           by destruct (SetConfigFile_fields (cfgFile flags) init Hne) as (-> & _).
Qed.

End FileChoice.

Section ExplicitFile.
Context `{GoLib}.

Lemma configured_withHomeSearch w flags home search :
  cfgFile flags ≠ "" →
  configured (withHomeSearch home search w) flags = configured w flags.
Proof.
  intros Hne. unfold configured.
  rewrite !(locate_explicit _ _ init Hne).
  assert (Viper.configFile (envSetup (Viper.SetConfigFile (cfgFile flags) init)) ≠ "")
    as Hf.
  { change (Viper.configFile (envSetup ?v)) with (Viper.configFile v).
    by destruct (SetConfigFile_fields (cfgFile flags) init Hne) as (-> & _). }
  unfold readConfig, Viper.ReadInConfig.
  by rewrite !(getConfigFile_explicit _ _ Hf).
Qed.

(** X10: with a [--config] path, the home directory and the per-user
    file play no part, also when the named file cannot be read or
    parsed: there is no fallback to [~/.config/gonzo]. *)
Theorem explicit_config_no_fallback (w : World) (flags : gmap string Flag)
    (home : sum string string)
    (search : string -> string -> string -> option string) :
  cfgFile flags ≠ "" →
  initConfig (withHomeSearch home search w) flags = initConfig w flags.
Proof.
  intros Hne.
  assert (Mapstructure.Decode (settings (withHomeSearch home search w) flags) =
          Mapstructure.Decode (settings w flags)) as Hdec.
  { apply Decode_ext. intros tag Htag. unfold settings.
    rewrite (configured_withHomeSearch w flags home search Hne).
    apply AllSettings_agree; try done. by apply taggedKeys_lower. }
  unfold initConfig, Unmarshal.
  by rewrite Hdec, (configured_withHomeSearch w flags home search Hne).
Qed.

End ExplicitFile.

Lemma explicit_config_no_fallback_witness :
  initConfig (withHomeSearch (inl "/home/u")
                (λ dir name ty, Some "/home/u/.config/gonzo/config.yml")
                brokenFileWorld) brokenFileFlags
  = initConfig brokenFileWorld brokenFileFlags.
Proof.
  apply (explicit_config_no_fallback brokenFileWorld brokenFileFlags).
  by_eval.
Defined.

(** ** Names of the environment variables *)

Lemma toEnvByte_char (c : ascii) : keyChar c = true → envNameChar (toEnvByte c) = true.
Proof.
  destruct c as [[] [] [] [] [] [] [] []]; vm_compute; congruence.
Qed.

Lemma allBytes_app (p : ascii -> bool) (a b : string) :
  allBytes p (a +:+ b) = allBytes p a && allBytes p b.
Proof. induction a as [|c a IH]; simpl; [done |]. by rewrite IH, andb_assoc. Qed.

Lemma allBytes_mapBytes (p q : ascii -> bool) (f : ascii -> ascii) (s : string) :
  (∀ c, p c = true → q (f c) = true) →
  allBytes p s = true → allBytes q (mapBytes f s) = true.
Proof.
  intros Hf. induction s as [|c s IH]; cbn; [done |].
  intros [Hc Hs]%andb_true_iff. by rewrite (Hf c Hc), IH.
Qed.

Lemma specEnvName_chars (key : string) :
  allBytes keyChar key = true → allBytes envNameChar (specEnvName key) = true.
Proof.
  intros Hk. unfold specEnvName, Replace, ToUpper.
  rewrite allBytes_app, mapBytes_mapBytes.
  apply andb_true_iff. split; [reflexivity |].
  by apply (allBytes_mapBytes keyChar envNameChar), Hk; apply toEnvByte_char.
Qed.

Lemma declaredKeys_chars (k : string) : k ∈ declaredKeys → allBytes keyChar k = true.
Proof.
  assert (Forall (λ k, allBytes keyChar k = true) declaredKeys) as Hall by by_eval.
  intros Hk. by apply (proj1 (list.Forall_forall _ _) Hall).
Qed.

(** X11: the name under which a declared key is looked up in the
    environment is made of upper-case letters, digits and underscores
    only: the hyphens of the keys never reach the environment, so every
    variable can be exported from a shell.  The same holds for any key
    written with lower-case letters, digits and hyphens. *)
Theorem env_name_exportable `{GoLib} (w : World) (flags : gmap string Flag)
    (key : string) :
  key ∈ declaredKeys ∨ allBytes keyChar key = true →
  allBytes envNameChar (envVarFor (configured w flags).1 key) = true.
Proof.
  intros Hk. rewrite envVarFor_configured. apply specEnvName_chars.
  destruct Hk as [Hk | Hk]; [by apply declaredKeys_chars | done].
Qed.

Lemma env_name_exportable_witness :
  allBytes envNameChar
    (envVarFor (configured sampleWorld sampleFlags).1 "disable-version-check") = true.
Proof.
  apply (env_name_exportable sampleWorld sampleFlags "disable-version-check").
  left. by_eval.
Defined.

(** ** The version command *)

Section Version.
Context `{GoLib}.

(** X12: [gonzo version] runs [initConfig] before it prints: when a
    value of the environment or of the configuration file does not
    decode, the command exits with status 1 and prints no version
    line.  When it prints, it prints the five lines of [versionCmd],
    with the version and the commit that [GetVersionInfo] returns, after
    the lines [initConfig] logged. *)
Theorem version_runs_initConfig (b : Build) (w : World) :
  (∀ inherited tag k v,
     parseFlags (w_args w) (flagSet persistentFlagDecls) = inl inherited →
     (tag, k) ∈ structTags →
     settings w (inherited ∪ flagSet localFlagDecls) !! tag = Some v →
     Mapstructure.decodeField k v = None →
     ∃ out, executeVersion b w = VersionExited 1 out) ∧
  (∀ log lines,
     executeVersion b w = VersionPrinted log lines →
     lines = versionCmdRun b ∧
     StdoutPrintf "  Version:    %s\n" [(GetVersionInfo b).1] ∈ lines ∧
     StdoutPrintf "  Commit:     %s\n" [(GetVersionInfo b).2] ∈ lines ∧
     ∃ inherited c,
       parseFlags (w_args w) (flagSet persistentFlagDecls) = inl inherited ∧
       initConfig w (inherited ∪ flagSet localFlagDecls) = RunApp c log).
Proof.
  split.
  - intros inherited tag k v Hp Hin Hv Hnone.
    destruct (Decode_fails _ tag k v Hin Hv Hnone) as (tags & Hdec & _).
    unfold executeVersion. rewrite Hp. unfold initConfig, Unmarshal.
    rewrite Hdec. by eexists.
  - intros log lines. unfold executeVersion.
    destruct (parseFlags (w_args w) (flagSet persistentFlagDecls))
      as [inherited | err]; [| done].
    destruct (initConfig w (inherited ∪ flagSet localFlagDecls))
      as [st out | c out] eqn:Hi; [done |].
    intros [= <- <-]. split; [done |].
    split; [unfold versionCmdRun, GetVersionInfo; cbn [fst]; set_solver |].
    split; [unfold versionCmdRun, GetVersionInfo; cbn [snd]; set_solver |].
    by exists inherited, c.
Qed.

End Version.

Lemma version_runs_initConfig_witness :
  settings noHomeWorld (flagSet persistentFlagDecls ∪ flagSet localFlagDecls)
    !! "otlp-grpc-port" = Some (VStr "notanumber") ∧
  ∃ out, executeVersion devBuild noHomeWorld = VersionExited 1 out.
Proof.
  assert (settings noHomeWorld (flagSet persistentFlagDecls ∪ flagSet localFlagDecls)
            !! "otlp-grpc-port" = Some (VStr "notanumber")) as Hv
    by (vm_compute; reflexivity).
  split; [exact Hv |].
  apply (proj1 (version_runs_initConfig devBuild noHomeWorld)
           (flagSet persistentFlagDecls) "otlp-grpc-port" KInt (VStr "notanumber")).
  - reflexivity.
  - by_eval.
  - exact Hv.
  - vm_compute; reflexivity.
Defined.

Example version_prints :
  executeVersion devBuild bareWorld =
  VersionPrinted
    [LogPrintf "Error finding home directory: %v" (ArgError (ErrOS "$HOME is not defined"))]
    [ StdoutPrintf "Gonzo - Log Analysis TUI\n" [];
      StdoutPrintf "  Version:    %s\n" ["dev"];
      StdoutPrintf "  Commit:     %s\n" ["unknown"];
      StdoutPrintf "  Built:      %s\n" ["unknown"];
      StdoutPrintf "  Go version: %s\n" ["unknown"] ].
Proof. vm_compute. reflexivity. Qed.

(** ** Flags, keys and defaults *)

(** X13: [init] leaves no flag behind and mixes no types: every flag
    of the root command except [version] is bound to a key (and to one
    only), and that key tags a field of [Config] of the flag's kind. *)
Theorem every_flag_bound (d : Flag) :
  d ∈ localFlagDecls → Name d ≠ "version" →
  ∃ key, Viper.pflags init !! key = Some (Name d) ∧
         (key, kindOfType (VType d)) ∈ structTags ∧
         ∀ key', Viper.pflags init !! key' = Some (Name d) → key' = key.
Proof.
  intros Hin Hne.
  exists (if decide (Name d = "file") then "files" else Name d).
  each_member Hin; try done; cbn [Name VType newFlag kindOfType];
    (split; [apply pflags_init_lookup; by_eval |]);
    (split; [by_eval |]);
    intros key' Hb; apply pflags_init_lookup in Hb;
    each_member Hb; reflexivity.
Qed.

Lemma every_flag_bound_witness :
  ∃ key, Viper.pflags init !! key = Some "file" ∧
         (key, KStrings) ∈ structTags ∧
         ∀ key', Viper.pflags init !! key' = Some "file" → key' = key.
Proof.
  apply (every_flag_bound (newFlag "file" "f" TStringSlice "[]")).
  - by_eval.
  - discriminate.
Defined.

Lemma filter_none {A} (P : A → Prop) `{∀ x, Decision (P x)} (l : list A) :
  (∀ x, x ∈ l → ¬ P x) → filter P l = [].
Proof.
  induction l as [|a l IH]; intros Hl; [done |].
  rewrite filter_cons, decide_False by (apply Hl; left).
  apply IH. intros x Hx. apply Hl. by right.
Qed.

Section Defaults.
Context `{GoLib}.
Import Mapstructure.

(** With nothing from the command line, the environment and the file,
    the merged document holds the default of each bound key's flag. *)
Lemma settings_default w :
  w_args w = [] →
  (∀ tag, tag ∈ taggedKeys → envReader w tag = None) →
  fileDoc w declaredFlags = ∅ →
  ∀ key name d, (key, name) ∈ bindCalls → declaredFlags !! name = Some d →
    settings w declaredFlags !! key = Some (Viper.flagValue d).
Proof.
  intros _ Henv Hdoc key name d Hb Hd.
  destruct (bound_flag_declared key name Hb) as (d' & _ & Hd' & _ & Hch & _).
  assert (d' = d) as -> by congruence.
  rewrite (settings_bound w declaredFlags key name d Hb Hd).
  unfold flagReader, fileReader.
  by rewrite Hch, (Henv key (boundKeys_tagged key name Hb)), Hdoc, lookup_empty.
Qed.

(** X14: when no flag is given, none of the variables [GONZO_<TAG>] is
    set (or all are empty) and no document comes from a file, startup
    enters the application body with the defaults of lines 141-160, as
    viper casts them from the flags; this needs the default interval
    [1s] to parse, and nothing else. *)
Theorem defaults_when_nothing_set (w : World) (interval : Z) :
  w_args w = [] →
  (∀ tag, tag ∈ taggedKeys → envReader w tag = None) →
  fileDoc w declaredFlags = ∅ →
  ParseDuration "1s" = Some interval →
  main w = RunApp (defaultConfig interval) (configured w declaredFlags).2.
Proof.
  intros Hargs Henv Hdoc Hdur.
  unfold main. rewrite Hargs. cbn [parseFlags].
  pose proof (settings_default w Hargs Henv Hdoc) as Hs.
  assert (settings w declaredFlags !! "config" = None) as Hcfg.
  { apply settings_unbound; [by_eval | by rewrite Hdoc]. }
  assert (∀ key name d v,
            (key, name) ∈ bindCalls → declaredFlags !! name = Some d →
            Viper.flagValue d = v →
            settings w declaredFlags !! key = Some v) as Hs'.
  { intros key name d v Hb Hd <-. by apply (Hs key name d). }
  assert (readAsCSV (TrimSuffix (TrimPrefix "[]" "[") "]") = readAsCSV "") as Hcsv
    by reflexivity.
  pose proof (Hs' "memory-size" "memory-size" _ _ ltac:(by_eval) ltac:(vm_compute; reflexivity) eq_refl) as H1.
  pose proof (Hs' "update-interval" "update-interval" _ _ ltac:(by_eval) ltac:(vm_compute; reflexivity) eq_refl) as H2.
  pose proof (Hs' "log-buffer" "log-buffer" _ _ ltac:(by_eval) ltac:(vm_compute; reflexivity) eq_refl) as H3.
  pose proof (Hs' "test-mode" "test-mode" _ _ ltac:(by_eval) ltac:(vm_compute; reflexivity) eq_refl) as H4.
  pose proof (Hs' "ai-model" "ai-model" _ _ ltac:(by_eval) ltac:(vm_compute; reflexivity) eq_refl) as H5.
  pose proof (Hs' "files" "file" _ _ ltac:(by_eval) ltac:(vm_compute; reflexivity) eq_refl) as H6.
  pose proof (Hs' "follow" "follow" _ _ ltac:(by_eval) ltac:(vm_compute; reflexivity) eq_refl) as H7.
  pose proof (Hs' "otlp-enabled" "otlp-enabled" _ _ ltac:(by_eval) ltac:(vm_compute; reflexivity) eq_refl) as H8.
  pose proof (Hs' "otlp-grpc-port" "otlp-grpc-port" _ _ ltac:(by_eval) ltac:(vm_compute; reflexivity) eq_refl) as H9.
  pose proof (Hs' "otlp-http-port" "otlp-http-port" _ _ ltac:(by_eval) ltac:(vm_compute; reflexivity) eq_refl) as H10.
  pose proof (Hs' "vmlogs-url" "vmlogs-url" _ _ ltac:(by_eval) ltac:(vm_compute; reflexivity) eq_refl) as H11.
  pose proof (Hs' "vmlogs-user" "vmlogs-user" _ _ ltac:(by_eval) ltac:(vm_compute; reflexivity) eq_refl) as H12.
  pose proof (Hs' "vmlogs-password" "vmlogs-password" _ _ ltac:(by_eval) ltac:(vm_compute; reflexivity) eq_refl) as H13.
  pose proof (Hs' "vmlogs-query" "vmlogs-query" _ _ ltac:(by_eval) ltac:(vm_compute; reflexivity) eq_refl) as H14.
  pose proof (Hs' "skin" "skin" _ _ ltac:(by_eval) ltac:(vm_compute; reflexivity) eq_refl) as H15.
  pose proof (Hs' "stop-words" "stop-words" _ _ ltac:(by_eval) ltac:(vm_compute; reflexivity) eq_refl) as H16.
  pose proof (Hs' "format" "format" _ _ ltac:(by_eval) ltac:(vm_compute; reflexivity) eq_refl) as H17.
  pose proof (Hs' "disable-version-check" "disable-version-check" _ _ ltac:(by_eval) ltac:(vm_compute; reflexivity) eq_refl) as H18.
  pose proof (Hs' "reverse-scroll-wheel" "reverse-scroll-wheel" _ _ ltac:(by_eval) ltac:(vm_compute; reflexivity) eq_refl) as H19.
  clear Hs Hs'. cbn [Viper.flagValue VType Value newFlag] in *.
  unfold initConfig, Unmarshal. generalize dependent (settings w declaredFlags).
  intros input. intros.
  assert (failing input = []) as Hfail.
  { unfold failing. rewrite (filter_none _ structTags); [done |].
    intros [tag k] Hin. cbn [fst snd].
    unfold decodeTag.
    each_member Hin;
      repeat match goal with Hx : input !! _ = _ |- _ => rewrite Hx; clear Hx end;
      cbn; rewrite ?Hdur, ?decodeStrings_sequence; try done.
    all: change (mapM decodeElem (VStr <$> ?l)) with (decodeStrings (VList (VStr <$> l)));
      by rewrite decodeStrings_sequence. }
  unfold Decode. rewrite Hfail. unfold defaultConfig.
  unfold getInt, getDuration, getBool, getString, getStrings, decodeTag.
  rewrite H1, H2, H3, H4, H5, H6, H7, H8, H9, H10, H11, H12, H13, H14, H15, H16,
    H17, H18, H19, Hcfg.
  cbn [decodeField decodeInt decodeBool decodeString decodeDuration zeroOf fmap option_fmap option_map].
  rewrite Hdur, Hcsv, decodeStrings_sequence. reflexivity.
Qed.

End Defaults.

Lemma defaults_when_nothing_set_witness :
  main bareWorld =
  RunApp (defaultConfig 1000000000) (configured bareWorld declaredFlags).2.
Proof.
  apply (defaults_when_nothing_set bareWorld 1000000000).
  - reflexivity.
  - intros tag _. unfold envReader. cbn [w_env bareWorld]. by rewrite lookup_empty.
  - by destruct (no_home_no_file bareWorld declaredFlags "$HOME is not defined"
                   ltac:(by_eval) eq_refl) as [_ Hdoc].
  - vm_compute; reflexivity.
Defined.

(** ** Empty variables *)

Section EmptyVariables.
Context `{GoLib}.

(** [find] uses the environment through [getEnv] only. *)
Lemma find_getEnv_agree w w' flags v key fd :
  Viper.getEnv w' v (Viper.mergeWithEnvPrefix v key) =
  Viper.getEnv w v (Viper.mergeWithEnvPrefix v key) →
  Viper.find w' flags v key fd = Viper.find w flags v key fd.
Proof. intros He. unfold Viper.find. by rewrite He. Qed.

Lemma getEnv_withEnv env w v name :
  Viper.getEnv (withEnv env w) v name =
  env !! Viper.envName v name ≫= (λ val, if decide (val = "") then None else Some val).
Proof. unfold Viper.getEnv. cbn [w_env withEnv]. by destruct (env !! _). Qed.

(** X15: a variable set to the empty string is the same as no variable:
    startup ends the same way with it set to empty as with it removed,
    so the environment cannot set a key to the empty text. *)
Theorem empty_variable_is_unset (w : World) (name : string) :
  main (withEnv (<[name := ""]> (w_env w)) w) =
  main (withEnv (delete name (w_env w)) w).
Proof.
  unfold main. cbn [w_args withEnv].
  destruct (parseFlags (w_args w) declaredFlags) as [flags | err]; [| done].
  assert (∀ env, configured (withEnv env w) flags = configured w flags) as Hc
    by (intros env; apply configured_withEnv).
  assert (Mapstructure.Decode (settings (withEnv (<[name := ""]> (w_env w)) w) flags) =
          Mapstructure.Decode (settings (withEnv (delete name (w_env w)) w) flags))
    as Hdec.
  { apply Decode_ext. intros tag Htag.
    unfold settings, Viper.AllSettings, Viper.Get.
    rewrite !Hc, !map_lookup_imap.
    rewrite (find_getEnv_agree (withEnv (delete name (w_env w)) w)
               (withEnv (<[name := ""]> (w_env w)) w)); [done |].
    rewrite !getEnv_withEnv.
    destruct (decide (name = Viper.envName (configured w flags).1
                (Viper.mergeWithEnvPrefix (configured w flags).1 (ToLower tag))))
      as [-> | Hne].
    - by rewrite lookup_insert_eq, lookup_delete_eq.
    - by rewrite lookup_insert_ne, lookup_delete_ne. }
  unfold initConfig, Unmarshal. by rewrite Hdec, !Hc.
Qed.

End EmptyVariables.
